(** * vispy.oogl.vbo: buffer objects, vertex buffers and their views

    A shallow embedding of [vispy/oogl/vbo.py].  Python objects that are
    shared by reference ([Buffer]) live in a store and are named by their
    location; a [VertexBuffer] only holds the location of its [Buffer].
    Calls into the [gl] module are recorded, in order, in a log.  Methods
    are computations in a state-and-exception monad: a raised exception
    keeps every assignment made before it, as in Python. *)

From stdpp Require Import base list gmap strings pretty.
From Stdlib Require Import ZArith Lia.

Open Scope Z_scope.

(** ** Exceptions and the method monad *)

(** [SystemError] is only produced when a location names no object of the
    store, which no reference handed out by this model does. *)
Inductive exn :=
| ValueError | RuntimeError | AssertionError | AttributeError | TypeError
| IndexError
| SystemError.

Inductive result (A : Type) :=
| Ok (a : A)
| Raise (e : exn).
Arguments Ok {A} a.
Arguments Raise {A} e.

Definition M (S A : Type) : Type := S -> result A * S.

Definition ret {S A} (a : A) : M S A := fun s => (Ok a, s).
Definition raise {S A} (e : exn) : M S A := fun s => (Raise e, s).
Definition bind {S A B} (m : M S A) (k : A -> M S B) : M S B :=
  fun s => match m s with
           | (Ok a, s') => k a s'
           | (Raise e, s') => (Raise e, s')
           end.

(** A Python [assert]. *)
Definition assert {S} (c : bool) : M S unit :=
  if c then ret tt else raise AssertionError.

#[global] Instance M_ret {S} : MRet (M S) := fun A => @ret S A.
#[global] Instance M_bind {S} : MBind (M S) := fun A B k m => @bind S A B m k.

(** An instance attribute: [Unset] until the first assignment to it. *)
Inductive attr (A : Type) :=
| Unset
| Assigned (a : A).
Arguments Unset {A}.
Arguments Assigned {A} a.

(** ** The [gl] module *)

(** The constants of [vispy.gl] the file names. *)
Inductive GLenum :=
| GL_ARRAY_BUFFER | GL_ELEMENT_ARRAY_BUFFER | GL_DYNAMIC_DRAW
| GL_UNSIGNED_BYTE | GL_BYTE | GL_UNSIGNED_SHORT | GL_SHORT
| GL_FLOAT | GL_HALF_FLOAT.

#[global] Instance GLenum_eq_dec : EqDecision GLenum.
Proof. solve_decision. Defined.

(** ** numpy arrays, as far as the file looks at them *)

Inductive scalar :=
| bool_ | int8 | uint8 | int16 | uint16 | int32 | uint32 | int64 | uint64
| float16 | float32 | float64 | complex64 | complex128.

#[global] Instance scalar_eq_dec : EqDecision scalar.
Proof. solve_decision. Defined.

(** [dtype.name] of a scalar dtype. *)
Definition scalar_name (k : scalar) : string :=
  match k with
  | bool_ => "bool" | int8 => "int8" | uint8 => "uint8"
  | int16 => "int16" | uint16 => "uint16"
  | int32 => "int32" | uint32 => "uint32"
  | int64 => "int64" | uint64 => "uint64"
  | float16 => "float16" | float32 => "float32" | float64 => "float64"
  | complex64 => "complex64" | complex128 => "complex128"
  end.

(** [dtype.itemsize] of a scalar dtype. *)
Definition scalar_itemsize (k : scalar) : Z :=
  match k with
  | bool_ | int8 | uint8 => 1
  | int16 | uint16 | float16 => 2
  | int32 | uint32 | float32 => 4
  | int64 | uint64 | float64 | complex64 => 8
  | complex128 => 16
  end.

(** The type of one field of a record dtype: a scalar, or a sub-array of
    scalars ([type.subdtype] is then the pair of the scalar and its shape). *)
Record field_dtype := {
  fd_base : scalar;
  fd_subshape : option (list Z)
}.

(** One entry of [dtype.fields]: name, then (type, offset). *)
Definition field_entry : Type := string * (field_dtype * Z).

(** A dtype: a scalar, or a record with named fields.  numpy gives
    [fields = None] to a dtype without named fields, so a record dtype
    has a first field. *)
Inductive dtype :=
| Plain (k : scalar)
| Structured (first : field_entry) (rest : list field_entry) (itemsize : Z).

Definition dtype_fields (d : dtype) : option (list field_entry) :=
  match d with
  | Plain _ => None
  | Structured f fs _ => Some (f :: fs)
  end.

Definition dtype_itemsize (d : dtype) : Z :=
  match d with
  | Plain k => scalar_itemsize k
  | Structured _ _ n => n
  end.

(** [dtype.name]: a record dtype is named after its size in bits. *)
Definition dtype_name (d : dtype) : string :=
  match d with
  | Plain k => scalar_name k
  | Structured _ _ n => "void" +:+ pretty (8 * n)
  end.

(** An array: its dtype, its shape, and [base], which stands for the
    numbers it holds (the file never looks at them). *)
Record ndarray := {
  arr_dtype : dtype;
  arr_shape : list Z;
  arr_base : nat
}.

Definition arr_ndim (a : ndarray) : Z := Z.of_nat (length (arr_shape a)).
Definition arr_size (a : ndarray) : Z := fold_right Z.mul 1 (arr_shape a).
Definition arr_nbytes (a : ndarray) : Z := arr_size a * dtype_itemsize (arr_dtype a).

(** [data.astype(np.float32)]: same shape, same numbers, float32 items. *)
Definition astype_float32 (a : ndarray) : ndarray :=
  {| arr_dtype := Plain float32; arr_shape := arr_shape a; arr_base := arr_base a |}.

(** Data types that OpenGL ES 2.0 can understand. *)
Definition DTYPES : list (string * GLenum) :=
  [ ("uint8", GL_UNSIGNED_BYTE); ("int8", GL_BYTE);
    ("uint16", GL_UNSIGNED_SHORT); ("int16", GL_SHORT);
    ("float32", GL_FLOAT);
    ("float16", GL_HALF_FLOAT) ].

(** [name in DTYPES] *)
Definition in_DTYPES (name : string) : bool :=
  bool_decide (name ∈ DTYPES.*1).

(** ** Python values passed as arguments *)

Definition loc := nat.
Bind Scope nat_scope with loc.

Inductive pyobj :=
| PyNone
| PyInt (z : Z)
| PyStr (s : string)
| PySlice (start stop step : option Z)
| PyArray (a : ndarray)
| PyBuffer (l : loc).

(** [x or d] on an optional integer: [None] and [0] are both false. *)
Definition or_default (x : option Z) (d : Z) : Z :=
  match x with
  | None => d
  | Some v => if v =? 0 then d else v
  end.

(** ** Calls into the device, and the world *)

Inductive gl_call :=
| glGenBuffers (n : Z)
| glDeleteBuffers (handles : list Z)
| glBindBuffer (target : GLenum) (handle : Z)
| glBufferData (target : GLenum) (nbytes : Z) (data : ndarray) (usage : GLenum)
| glBufferSubData (target : GLenum) (offset nbytes : Z) (data : ndarray).

(** The attributes of a [Buffer] instance.  [__init__] assigns the first
    three; [_pending_data] is only assigned by [set_data] and [_enable]. *)
Record Buffer := {
  _target : GLenum;
  _handle : Z;
  _buffer_size : Z;
  _pending_data : attr (option (ndarray * option Z))
}.

Definition with_handle (h : Z) (b : Buffer) : Buffer :=
  {| _target := _target b; _handle := h;
     _buffer_size := _buffer_size b; _pending_data := _pending_data b |}.
Definition with_buffer_size (n : Z) (b : Buffer) : Buffer :=
  {| _target := _target b; _handle := _handle b;
     _buffer_size := n; _pending_data := _pending_data b |}.
Definition with_pending_data (p : option (ndarray * option Z)) (b : Buffer) : Buffer :=
  {| _target := _target b; _handle := _handle b;
     _buffer_size := _buffer_size b; _pending_data := Assigned p |}.

(** The world: the store of [Buffer] objects, the calls made into [gl] so
    far (oldest first), and the driver: the name [glGenBuffers] returns
    after a given history of calls. *)
Record world := {
  heap : list Buffer;
  gl_log : list gl_call;
  driver : list gl_call -> Z
}.

Definition with_heap (h : list Buffer) (w : world) : world :=
  {| heap := h; gl_log := gl_log w; driver := driver w |}.

(** Issue a device call that returns nothing. *)
Definition gl (c : gl_call) : M world unit :=
  fun w => (Ok tt, {| heap := heap w; gl_log := gl_log w ++ [c]; driver := driver w |}).

(** [gl.glGenBuffers(n)] *)
Definition gl_glGenBuffers (n : Z) : M world Z :=
  fun w => (Ok (driver w (gl_log w)),
            {| heap := heap w; gl_log := gl_log w ++ [glGenBuffers n]; driver := driver w |}).

(** Read the object at [l]. *)
Definition load (l : loc) : M world Buffer :=
  fun w => match heap w !! l with
           | Some b => (Ok b, w)
           | None => (Raise SystemError, w)
           end.

(** Assign attributes of the object at [l]. *)
Definition modify (l : loc) (f : Buffer -> Buffer) : M world unit :=
  fun w => match heap w !! l with
           | Some b => (Ok tt, with_heap (<[l := f b]> (heap w)) w)
           | None => (Raise SystemError, w)
           end.

(** A new object, at the next free location. *)
Definition alloc (b : Buffer) : M world loc :=
  fun w => (Ok (length (heap w)), with_heap (heap w ++ [b]) w).

(** ** class Buffer *)

Module Buffer.

Definition _create (self : loc) : M world unit :=
  h ← gl_glGenBuffers 1;
  modify self (with_handle h).

Definition _delete (self : loc) : M world unit :=
  b ← load self;
  gl (glDeleteBuffers [_handle b]).

(** Modelled from the spec: [GLObject.delete], the disposal that [Buffer]
    inherits from its base class, which is not in this file: release the
    device handle if allocated; idempotent.  A positive handle is a live
    one and 0 an uninitialized one. *)
Definition delete (self : loc) : M world unit :=
  b ← load self;
  if 0 <? _handle b then
    _delete self;;
    modify self (with_handle 0)
  else mret tt.

Definition set_data (self : loc) (data : pyobj) (offset : option Z) : M world unit :=
  match data with
  | PyArray data =>
      (* Reset if there was an error earlier *)
      b ← load self;
      (if _handle b <? 0 then
         modify self (with_handle 0);;
         modify self (with_buffer_size 0)
       else mret tt);;
      (* Check offset *)
      b ← load self;
      offset ← match offset with
               | Some o =>
                   assert (o + arr_nbytes data <=? _buffer_size b);;
                   mret (Some o)
               | None =>
                   if arr_nbytes data =? _buffer_size b then mret (Some 0)
                   else mret None
               end;
      (* Set pending data, and number of bytes *)
      modify self (with_pending_data (Some (data, offset)));;
      modify self (with_buffer_size (arr_nbytes data))
  | _ => raise ValueError
  end.

Definition __init__ (target : GLenum) (data : pyobj) : M world loc :=
  if bool_decide (target ∈ [GL_ARRAY_BUFFER; GL_ELEMENT_ARRAY_BUFFER]) then
    self ← alloc {| _target := target; _handle := 0; _buffer_size := -1;
                    _pending_data := Unset |};
    match data with
    | PyNone => mret self
    | _ => set_data self data None;; mret self
    end
  else raise ValueError.

Definition nbytes (self : loc) : M world Z :=
  b ← load self;
  mret (_buffer_size b).

Definition _upload (self : loc) (data : ndarray) : M world unit :=
  b ← load self;
  gl (glBufferData (_target b) (arr_nbytes data) data GL_DYNAMIC_DRAW).

Definition _update (self : loc) (data : ndarray) (offset : Z) : M world unit :=
  b ← load self;
  gl (glBufferSubData (_target b) offset (arr_nbytes data) data).

(** [gl.glBindBuffer(self._target, self._handle)] *)
Definition bind_self (self : loc) : M world unit :=
  b ← load self;
  gl (glBindBuffer (_target b) (_handle b)).

Definition _enable (self : loc) : M world unit :=
  b ← load self;
  (* Error last time? *)
  if _handle b <? 0 then mret tt
  else
    (* Need to update data? *)
    pending ← match _pending_data b with
              | Unset => raise AttributeError
              | Assigned p => mret p
              end;
    match pending with
    | Some (data, offset) =>
        modify self (with_pending_data None);;
        match offset with
        | Some offset =>
            (* Fast update *)
            bind_self self;;
            _update self data offset
        | None =>
            (* Recreate buffer object, just in case *)
            delete self;;
            _create self;;
            (* Upload data *)
            bind_self self;;
            _upload self data
        end
    | None => mret tt
    end;;
    (* Bind *)
    bind_self self.

Definition _disable (self : loc) : M world unit :=
  b ← load self;
  gl (glBindBuffer (_target b) 0).

End Buffer.

(** ** unravel_dtype_fields *)

(** One value of the dictionary: (dtypename, size, offset). *)
Definition fieldinfo : Type := string * Z * Z.

Definition from_result {S A} (r : result A) : M S A :=
  match r with
  | Ok a => mret a
  | Raise e => raise e
  end.

(** [t[i]] on a tuple of integers. *)
Definition tuple_item {S} (t : list Z) (i : nat) : M S Z :=
  match t !! i with
  | Some v => mret v
  | None => raise IndexError
  end.

(** The loop of [unravel_dtype_fields], over the names still to visit. *)
Fixpoint unravel_loop (names : list field_entry) (fields : gmap string fieldinfo)
  : result (gmap string fieldinfo) :=
  match names with
  | [] => Ok fields
  | (name, (type, offset)) :: names =>
      let '(thisdtype, shape) :=
        match fd_subshape type with
        | Some shape => (fd_base type, shape)
        | None => (fd_base type, [1])
        end in
      match shape with
      | [shape0] =>
          unravel_loop names (<[name := (scalar_name thisdtype, shape0, offset)]> fields)
      | _ => Raise AssertionError
      end
  end.

(** Create a dictionary of names to tuples, one for each field in the
    given dtype: (dtypename, size, offset). *)
Definition unravel_dtype_fields (d : dtype) : result (gmap string fieldinfo) :=
  match dtype_fields d with
  | Some names => unravel_loop names ∅
  | None => Raise TypeError
  end.

(** ** class VertexBuffer *)

(** [self._type]: [None], the name of a dtype, or the dictionary of the
    fields of a record dtype. *)
Inductive vtype :=
| TNone
| TName (name : string)
| TFields (fields : gmap string fieldinfo).

(** The attributes of a [VertexBuffer] instance.  [__init__] always stores
    a [Buffer] in [_buffer]. *)
Record VertexBuffer := {
  _isview : bool;
  _buffer : loc;
  _offset : Z;
  _stride : Z;
  _shape : option (Z * Z);
  _type : vtype
}.

Definition with_isview (v : bool) (s : VertexBuffer) : VertexBuffer :=
  {| _isview := v; _buffer := _buffer s; _offset := _offset s;
     _stride := _stride s; _shape := _shape s; _type := _type s |}.
Definition with_offset (o : Z) (s : VertexBuffer) : VertexBuffer :=
  {| _isview := _isview s; _buffer := _buffer s; _offset := o;
     _stride := _stride s; _shape := _shape s; _type := _type s |}.
Definition with_stride (n : Z) (s : VertexBuffer) : VertexBuffer :=
  {| _isview := _isview s; _buffer := _buffer s; _offset := _offset s;
     _stride := n; _shape := _shape s; _type := _type s |}.
Definition with_shape (sh : Z * Z) (s : VertexBuffer) : VertexBuffer :=
  {| _isview := _isview s; _buffer := _buffer s; _offset := _offset s;
     _stride := _stride s; _shape := Some sh; _type := _type s |}.
Definition with_type (t : vtype) (s : VertexBuffer) : VertexBuffer :=
  {| _isview := _isview s; _buffer := _buffer s; _offset := _offset s;
     _stride := _stride s; _shape := _shape s; _type := t |}.

(** A method that assigns attributes of [self] runs on the pair of
    [self] and the world. *)
Definition self_get : M (VertexBuffer * world) VertexBuffer :=
  fun s => (Ok (fst s), s).
Definition self_set (f : VertexBuffer -> VertexBuffer) : M (VertexBuffer * world) unit :=
  fun s => (Ok tt, (f (fst s), snd s)).
Definition on_world {A} (m : M world A) : M (VertexBuffer * world) A :=
  fun s => let '(r, w) := m (snd s) in (r, (fst s, w)).

(** Run a method on [self] and hand the object back. *)
Definition with_self (self : VertexBuffer) (m : M (VertexBuffer * world) unit)
  : M world VertexBuffer :=
  fun w => match m (self, w) with
           | (Ok _, (self', w')) => (Ok self', w')
           | (Raise e, (_, w')) => (Raise e, w')
           end.

(** [self._shape[i]] *)
Definition shape_item {S} (shape : option (Z * Z)) (i : nat) : M S Z :=
  match shape with
  | None => raise TypeError
  | Some (s0, s1) =>
      match i with
      | O => mret s0
      | 1%nat => mret s1
      | _ => raise IndexError
      end
  end.

Module VertexBuffer.

Definition set_data (data : pyobj) (offset : option Z) : M (VertexBuffer * world) unit :=
  self ← self_get;
  (* Can we update the data at all from this VertexBuffer? *)
  if _isview self then raise RuntimeError
  else
    match data with
    | PyArray data =>
        data ← match arr_dtype data with
               | Structured _ _ _ =>
                   (* Data with multiple fields *)
                   fields ← from_result (unravel_dtype_fields (arr_dtype data));
                   assert (bool_decide (map_Forall (fun _ (fieldinfo : fieldinfo) =>
                             in_DTYPES fieldinfo.1.1 = true
                             ∧ fieldinfo.1.2 ∈ [1; 2; 3; 4]) fields));;
                   (* Set type and shape *)
                   self_set (with_type (TFields fields));;
                   self_set (with_shape (arr_size data, 1));;
                   mret data
               | Plain _ =>
                   (* Plain data *)
                   assert (bool_decide (arr_ndim data ∈ [1; 2]));;
                   tuple_count ← (if arr_ndim data =? 2 then
                                    shape1 ← tuple_item (arr_shape data) 1;
                                    assert (bool_decide (shape1 ∈ [1; 2; 3; 4]));;
                                    mret shape1
                                  else mret 1);
                   (* Convert if necessary *)
                   let data := if negb (in_DTYPES (dtype_name (arr_dtype data)))
                               then astype_float32 data else data in
                   (* Set type and shape *)
                   self_set (with_type (TName (dtype_name (arr_dtype data))));;
                   shape0 ← tuple_item (arr_shape data) 0;
                   self_set (with_shape (shape0, tuple_count));;
                   mret data
               end;
        (* Check offset *)
        self ← self_get;
        let offset := if _offset self =? 0 then offset
                      else Some (or_default offset 0 + _offset self) in
        (* Set data in buffer *)
        shape1 ← shape_item (_shape self) 1;
        self_set (with_stride (dtype_itemsize (arr_dtype data) * shape1));;
        on_world (Buffer.set_data (_buffer self) (PyArray data) offset)
    | _ => raise ValueError
    end.

Definition __init__ (data buffer : pyobj) : M world VertexBuffer :=
  (* Set buffer *)
  buffer ← match buffer with
           | PyNone => Buffer.__init__ GL_ARRAY_BUFFER PyNone
           | PyBuffer buffer => mret buffer
           | _ => raise ValueError
           end;
  let self := {| _isview := false; _buffer := buffer; _offset := 0;
                 _stride := 0; _shape := None; _type := TNone |} in
  (* Set data? *)
  match data with
  | PyNone => mret self
  | _ => with_self self (set_data data None)
  end.

Definition _enable (self : VertexBuffer) : M world unit :=
  Buffer._enable (_buffer self).

Definition _disable (self : VertexBuffer) : M world unit :=
  Buffer._disable (_buffer self).

Definition buffer (self : VertexBuffer) : loc := _buffer self.
Definition view_params (self : VertexBuffer) : Z * Z := (_offset self, _stride self).
Definition type (self : VertexBuffer) : vtype := _type self.
Definition shape (self : VertexBuffer) : option (Z * Z) := _shape self.

Definition __getitem__ (self : VertexBuffer) (index : pyobj) : M world VertexBuffer :=
  params ← match index with
           | PyStr index =>
               (* Try to get field info *)
               match _type self with
               | TFields fields =>
                   match fields !! index with
                   | Some fieldinfo =>
                       (* Get view params *)
                       let new_offset := fieldinfo.2 + _offset self in
                       let new_stride := _stride self in
                       (* Type and shape *)
                       let new_type := TName fieldinfo.1.1 in
                       new_shape0 ← shape_item (_shape self) 0;
                       let new_shape1 := fieldinfo.1.2 in
                       mret (new_offset, new_stride, new_type, new_shape0, new_shape1)
                   | None => raise ValueError
                   end
               | _ => raise RuntimeError
               end
           | PySlice start stop step =>
               (* Get defaults *)
               let start := or_default start 0 in
               let step := or_default step 1 in
               stop ← match stop with
                      | Some stop => if stop =? 0 then shape_item (_shape self) 0
                                     else mret stop
                      | None => shape_item (_shape self) 0
                      end;
               assert (0 <=? start);;
               assert (1 <=? step);;
               assert (0 <? stop);;
               (* Get view params *)
               let new_offset := start * _stride self + _offset self in
               let new_stride := step * _stride self in
               (* Type and shape *)
               let new_type := _type self in
               let new_shape0 := (stop - start) `div` step in
               new_shape1 ← shape_item (_shape self) 1;
               mret (new_offset, new_stride, new_type, new_shape0, new_shape1)
           | _ => raise ValueError
           end;
  let '(new_offset, new_stride, new_type, new_shape0, new_shape1) := params in
  (* Create new VertexBuffer based on our own buffer *)
  newbuffer ← __init__ PyNone (PyBuffer (_buffer self));
  let newbuffer := with_isview true newbuffer in
  (* Set view parameters *)
  let newbuffer := with_offset new_offset newbuffer in
  let newbuffer := with_stride new_stride newbuffer in
  (* Other parameters *)
  let newbuffer := with_shape (new_shape0, new_shape1) newbuffer in
  let newbuffer := with_type new_type newbuffer in
  (* Done *)
  mret newbuffer.

End VertexBuffer.

(** ** class ElementBuffer *)

Module ElementBuffer.

(** The attributes of an [ElementBuffer] instance: [_type] is [None] or
    the name of a dtype. *)
Record t := {
  _buffer : loc;
  _shape : option (Z * Z);
  _type : option string
}.

Definition with_shape (sh : Z * Z) (s : t) : t :=
  {| _buffer := _buffer s; _shape := Some sh; _type := _type s |}.
Definition with_type (name : string) (s : t) : t :=
  {| _buffer := _buffer s; _shape := _shape s; _type := Some name |}.

Definition self_get : M (t * world) t :=
  fun s => (Ok (fst s), s).
Definition self_set (f : t -> t) : M (t * world) unit :=
  fun s => (Ok tt, (f (fst s), snd s)).
Definition on_world {A} (m : M world A) : M (t * world) A :=
  fun s => let '(r, w) := m (snd s) in (r, (fst s, w)).
Definition with_self (self : t) (m : M (t * world) unit) : M world t :=
  fun w => match m (self, w) with
           | (Ok _, (self', w')) => (Ok self', w')
           | (Raise e, (_, w')) => (Raise e, w')
           end.

(** [astype] stands for [data.astype(np.float32)] on a record array,
    which is numpy's to decide: this class has no branch for record
    arrays and hands them to the conversion. *)
Definition set_data (astype : ndarray -> result ndarray)
    (data : pyobj) (offset : option Z) : M (t * world) unit :=
  match data with
  | PyArray data =>
      (* Plain data *)
      assert (bool_decide (arr_ndim data ∈ [1; 2]));;
      tuple_count ← (if arr_ndim data =? 2 then
                       shape1 ← tuple_item (arr_shape data) 1;
                       assert (bool_decide (shape1 ∈ [1; 2; 3; 4]));;
                       mret shape1
                     else mret 1);
      (* Convert if necessary *)
      data ← (if negb (in_DTYPES (dtype_name (arr_dtype data))) then
                match arr_dtype data with
                | Plain _ => mret (astype_float32 data)
                | Structured _ _ _ => from_result (astype data)
                end
              else mret data);
      (* Set type and shape *)
      self_set (with_type (dtype_name (arr_dtype data)));;
      shape0 ← tuple_item (arr_shape data) 0;
      self_set (with_shape (shape0, tuple_count));;
      (* Set data in buffer *)
      self ← self_get;
      on_world (Buffer.set_data (_buffer self) (PyArray data) offset)
  | _ => raise ValueError
  end.

Definition __init__ (astype : ndarray -> result ndarray)
    (data buffer : pyobj) : M world t :=
  (* Set buffer *)
  buffer ← match buffer with
           | PyNone => Buffer.__init__ GL_ELEMENT_ARRAY_BUFFER PyNone
           | PyBuffer buffer => mret buffer
           | _ => raise ValueError
           end;
  let self := {| _buffer := buffer; _shape := None; _type := None |} in
  (* Set data? *)
  match data with
  | PyNone => mret self
  | _ => with_self self (set_data astype data None)
  end.

Definition _enable (self : t) : M world unit :=
  Buffer._enable (_buffer self).

Definition _disable (self : t) : M world unit :=
  Buffer._disable (_buffer self).

Definition buffer (self : t) : loc := _buffer self.

End ElementBuffer.

(** * Notions used in the statements *)

(** The world in which the object at [l] is [b]. *)
Definition set_obj (l : loc) (b : Buffer) (w : world) : world :=
  with_heap (<[l := b]> (heap w)) w.

(** The world after one more device call. *)
Definition logged (c : gl_call) (w : world) : world :=
  {| heap := heap w; gl_log := gl_log w ++ [c]; driver := driver w |}.

(** What [set_data] compares the new data with: the reset of a failed
    buffer comes first. *)
Definition handle_after_reset (b : Buffer) : Z :=
  if _handle b <? 0 then 0 else _handle b.
Definition size_after_reset (b : Buffer) : Z :=
  if _handle b <? 0 then 0 else _buffer_size b.

(** The offset [set_data] stages when the caller gives none. *)
Definition staged_offset (b : Buffer) (data : ndarray) : option Z :=
  if arr_nbytes data =? size_after_reset b then Some 0 else None.

(** The object after [set_data(data)]. *)
Definition after_set_data (b : Buffer) (data : ndarray) : Buffer :=
  {| _target := _target b;
     _handle := handle_after_reset b;
     _buffer_size := arr_nbytes data;
     _pending_data := Assigned (Some (data, staged_offset b data)) |}.

(** The calls that release the object's handle, if it has a live one. *)
Definition deleted_calls (b : Buffer) : list gl_call :=
  if 0 <? _handle b then [glDeleteBuffers [_handle b]] else [].

(** The object after [_enable] has consumed its pending data. *)
Definition enabled (b : Buffer) (h : Z) : Buffer :=
  {| _target := _target b; _handle := h; _buffer_size := _buffer_size b;
     _pending_data := Assigned None |}.

(** Twelve bytes: three float32 numbers. *)
Definition three_floats : ndarray :=
  {| arr_dtype := Plain float32; arr_shape := [3]; arr_base := 0 |}.

(** A buffer whose allocation failed after it held twelve bytes. *)
Definition failed_buffer : Buffer :=
  {| _target := GL_ARRAY_BUFFER; _handle := -1; _buffer_size := 12;
     _pending_data := Assigned None |}.

(** A driver that names every buffer 1. *)
Definition world_of (objects : list Buffer) : world :=
  {| heap := objects; gl_log := []; driver := fun _ => 1 |}.

(** A live buffer object of twelve bytes with nothing pending. *)
Definition live_buffer : Buffer :=
  {| _target := GL_ARRAY_BUFFER; _handle := 1; _buffer_size := 12;
     _pending_data := Assigned None |}.

(** Four bytes: one float32 number. *)
Definition one_float : ndarray :=
  {| arr_dtype := Plain float32; arr_shape := [1]; arr_base := 1 |}.

(** An index buffer object. *)
Definition index_buffer : Buffer :=
  {| _target := GL_ELEMENT_ARRAY_BUFFER; _handle := 0; _buffer_size := -1;
     _pending_data := Unset |}.

(** The object [VertexBuffer.__init__] makes around the Buffer at [l]. *)
Definition new_VertexBuffer (l : loc) : VertexBuffer :=
  {| _isview := false; _buffer := l; _offset := 0; _stride := 0;
     _shape := None; _type := TNone |}.

(** The object [Buffer.__init__] makes. *)
Definition new_Buffer (target : GLenum) : Buffer :=
  {| _target := target; _handle := 0; _buffer_size := -1;
     _pending_data := Unset |}.

(** The view [__getitem__] returns. *)
Definition view_of (v : VertexBuffer) (offset stride : Z) (shape : Z * Z)
    (type : vtype) : VertexBuffer :=
  {| _isview := true; _buffer := _buffer v; _offset := offset;
     _stride := stride; _shape := Some shape; _type := type |}.

(** Ten float32 triples. *)
Definition ten_by_three : ndarray :=
  {| arr_dtype := Plain float32; arr_shape := [10; 3]; arr_base := 4 |}.

(** The VertexBuffer [VertexBuffer(ten_by_three)] is, over the Buffer
    at 0. *)
Definition ten_triples : VertexBuffer :=
  {| _isview := false; _buffer := 0; _offset := 0; _stride := 12;
     _shape := Some (10, 3); _type := TName "float32" |}.

(** The VertexBuffer objects a program can hold: made by [__init__], fed
    by [set_data] (whether it returns or raises), or returned by
    [__getitem__]. *)
Inductive built : VertexBuffer -> Prop :=
| built_init data buffer w v w' :
    VertexBuffer.__init__ data buffer w = (Ok v, w') -> built v
| built_set_data v data offset w r v' w' :
    built v ->
    VertexBuffer.set_data data offset (v, w) = (r, (v', w')) -> built v'
| built_getitem v index w v' w' :
    built v ->
    VertexBuffer.__getitem__ v index w = (Ok v', w') -> built v'.

(** Once [_type] is assigned, so is [_shape]. *)
Definition typed_has_shape (v : VertexBuffer) : Prop :=
  _type v <> TNone -> is_Some (_shape v).

(** Only a view has an offset. *)
Definition own_at_zero (v : VertexBuffer) : Prop :=
  _isview v = false -> _offset v = 0.

(** Ten records of twenty bytes: three float32 of position, four uint8 of
    colour, one float32 of weight. *)
Definition ten_records : ndarray :=
  {| arr_dtype :=
       Structured ("pos", ({| fd_base := float32; fd_subshape := Some [3] |}, 0))
         [("col", ({| fd_base := uint8; fd_subshape := Some [4] |}, 12));
          ("w", ({| fd_base := float32; fd_subshape := None |}, 16))] 20;
     arr_shape := [10]; arr_base := 2 |}.

(** The VertexBuffer [VertexBuffer(ten_records)] is. *)
Definition record_buffer : VertexBuffer :=
  {| _isview := false; _buffer := 0; _offset := 0; _stride := 20;
     _shape := Some (10, 1);
     _type := TFields (<["pos" := ("float32", 3, 0)]>
                       (<["col" := ("uint8", 4, 12)]>
                        (<["w" := ("float32", 1, 16)]> ∅))) |}.

(** Ten float64 numbers. *)
Definition ten_doubles : ndarray :=
  {| arr_dtype := Plain float64; arr_shape := [10]; arr_base := 3 |}.

(** The object after the reset of a failed buffer. *)
Definition after_reset (b : Buffer) : Buffer :=
  if _handle b <? 0 then with_buffer_size 0 (with_handle 0 b) else b.

(** The component count [unravel_dtype_fields] gives a field: 1 without a
    sub-array, the length of a sub-array of one dimension, none
    otherwise. *)
Definition field_count (t : field_dtype) : option Z :=
  match fd_subshape t with
  | None => Some 1
  | Some [c] => Some c
  | Some _ => None
  end.

(** A field OpenGL ES 2.0 can take: a scalar kind of DTYPES, one to four
    components. *)
Definition field_ok (e : field_entry) : bool :=
  in_DTYPES (scalar_name (fd_base e.2.1)) &&
  match field_count e.2.1 with
  | Some c => bool_decide (c ∈ [1; 2; 3; 4])
  | None => false
  end.

(** What [VertexBuffer.set_data] asserts of every value of the
    dictionary. *)
Definition info_ok (fi : fieldinfo) : Prop :=
  in_DTYPES fi.1.1 = true ∧ fi.1.2 ∈ [1; 2; 3; 4].

(** A shape [set_data] takes for a plain array: one dimension, or two
    with one to four columns. *)
Definition plain_shape_ok (shape : list Z) : bool :=
  match shape with
  | [_] => true
  | [_; m] => bool_decide (m ∈ [1; 2; 3; 4])
  | _ => false
  end.

(** The array [set_data] hands to the Buffer: converted to float32 unless
    its kind is a key of DTYPES. *)
Definition converted (a : ndarray) : ndarray :=
  if in_DTYPES (dtype_name (arr_dtype a)) then a else astype_float32 a.

(** What a VertexBuffer may carry as type and as vector size: a key of
    DTYPES or a dictionary of fields OpenGL ES 2.0 can take, and one to
    four components. *)
Definition type_ok (t : vtype) : Prop :=
  match t with
  | TNone => True
  | TName name => in_DTYPES name = true
  | TFields fields => map_Forall (fun _ : string => info_ok) fields
  end.
Definition shape_ok (s : option (Z * Z)) : Prop :=
  match s with
  | None => True
  | Some (_, k) => k ∈ [1; 2; 3; 4]
  end.

(** The object [ElementBuffer.__init__] makes around the Buffer at [l]. *)
Definition new_ElementBuffer (l : loc) : ElementBuffer.t :=
  {| ElementBuffer._buffer := l; ElementBuffer._shape := None;
     ElementBuffer._type := None |}.

(** Six indices, as numpy makes them from a list of integers. *)
Definition six_indices : ndarray :=
  {| arr_dtype := Plain uint32; arr_shape := [6]; arr_base := 7 |}.

(** A conversion of record arrays that refuses them. *)
Definition no_records (a : ndarray) : result ndarray := Raise TypeError.

(** * Properties *)

(** ** Stepping through a method *)

Lemma mbind_ok {S A B} (m : M S A) (k : A -> M S B) s a s' :
  m s = (Ok a, s') -> (m ≫= k) s = k a s'.
Proof. intros H. unfold mbind, M_bind, bind. now rewrite H. Qed.

Lemma mbind_assoc {S A B C} (m : M S A) (f : A -> M S B) (g : B -> M S C) s :
  ((m ≫= f) ≫= g) s = (m ≫= (fun x => f x ≫= g)) s.
Proof. unfold mbind, M_bind, bind. destruct (m s) as [[a|e] s']; reflexivity. Qed.

Lemma assert_true {S} (c : bool) (s : S) : c = true -> assert c s = (Ok tt, s).
Proof. now intros ->. Qed.

Lemma load_ok l b w : heap w !! l = Some b -> load l w = (Ok b, w).
Proof. intros H. unfold load. now rewrite H. Qed.

Lemma modify_ok l f b w :
  heap w !! l = Some b -> modify l f w = (Ok tt, set_obj l (f b) w).
Proof. intros H. unfold modify. now rewrite H. Qed.

(** Solve [heap w' !! l = Some _] for a world built from [w]. *)
Ltac lk :=
  unfold set_obj, with_heap, logged; simpl;
  first [ eassumption
        | apply list_lookup_insert_eq; rewrite ?length_insert;
          eapply lookup_lt_Some; eassumption ].

(** Run the next statement of a method. *)
Ltac run :=
  rewrite ?mbind_assoc;
  first
    [ erewrite mbind_ok by (first [ apply load_ok; lk
                                  | apply modify_ok; lk
                                  | apply assert_true; eassumption
                                  | reflexivity ])
    | erewrite modify_ok by lk
    | erewrite load_ok by lk ].

(** Compare two worlds field by field. *)
Ltac same_world :=
  unfold set_obj, with_heap, logged; simpl;
  rewrite ?list_insert_insert_eq, ?app_nil_r, <- ?app_assoc; simpl;
  try reflexivity.

(** ** Buffer.set_data without an offset *)

Lemma set_data_no_offset l b data w :
  heap w !! l = Some b ->
  Buffer.set_data l (PyArray data) None w
  = (Ok tt, set_obj l (after_set_data b data) w).
Proof.
  intros Hl. unfold Buffer.set_data, after_set_data, staged_offset,
    handle_after_reset, size_after_reset.
  run. destruct (_handle b <? 0) eqn:Hh.
  - do 3 run. simpl.
    destruct (arr_nbytes data =? 0); repeat run; same_world.
  - do 2 run.
    destruct (arr_nbytes data =? _buffer_size b); repeat run; same_world.
Qed.

(** ** The steps of Buffer._enable *)

Lemma bind_self_run l b w :
  heap w !! l = Some b ->
  Buffer.bind_self l w = (Ok tt, logged (glBindBuffer (_target b) (_handle b)) w).
Proof. intros H. unfold Buffer.bind_self. now run. Qed.

Lemma _update_run l b data offset w :
  heap w !! l = Some b ->
  Buffer._update l data offset w
  = (Ok tt, logged (glBufferSubData (_target b) offset (arr_nbytes data) data) w).
Proof. intros H. unfold Buffer._update. now run. Qed.

Lemma _upload_run l b data w :
  heap w !! l = Some b ->
  Buffer._upload l data w
  = (Ok tt, logged (glBufferData (_target b) (arr_nbytes data) data GL_DYNAMIC_DRAW) w).
Proof. intros H. unfold Buffer._upload. now run. Qed.

Lemma _create_run l b w :
  heap w !! l = Some b ->
  Buffer._create l w
  = (Ok tt, set_obj l (with_handle (driver w (gl_log w)) b) (logged (glGenBuffers 1) w)).
Proof.
  intros H. unfold Buffer._create.
  erewrite mbind_ok by (unfold gl_glGenBuffers; reflexivity).
  now erewrite modify_ok by lk.
Qed.

Lemma delete_run l b w :
  heap w !! l = Some b ->
  Buffer.delete l w
  = (Ok tt, if 0 <? _handle b
            then set_obj l (with_handle 0 b) (logged (glDeleteBuffers [_handle b]) w)
            else w).
Proof.
  intros H. unfold Buffer.delete, Buffer._delete. run.
  destruct (0 <? _handle b); [| reflexivity].
  run. erewrite mbind_ok by reflexivity. now erewrite modify_ok by lk.
Qed.

Ltac run_buffer :=
  rewrite ?mbind_assoc;
  first
    [ erewrite mbind_ok by (first [ apply bind_self_run; lk
                                  | apply _update_run; lk
                                  | apply _upload_run; lk
                                  | apply _create_run; lk
                                  | apply delete_run; lk ])
    | erewrite bind_self_run by lk
    | run ].

Lemma enable_failed l b w :
  heap w !! l = Some b -> _handle b < 0 -> Buffer._enable l w = (Ok tt, w).
Proof.
  intros Hl Hh. unfold Buffer._enable. run.
  now replace (_handle b <? 0) with true by lia.
Qed.

Lemma enable_idle l b w :
  heap w !! l = Some b ->
  0 <= _handle b ->
  _pending_data b = Assigned None ->
  Buffer._enable l w = (Ok tt, logged (glBindBuffer (_target b) (_handle b)) w).
Proof.
  intros Hl Hh Hp. unfold Buffer._enable. run.
  replace (_handle b <? 0) with false by lia.
  rewrite Hp. run. cbv beta iota. run. now run_buffer.
Qed.

Lemma enable_fast l b data offset w :
  heap w !! l = Some b ->
  0 <= _handle b ->
  _pending_data b = Assigned (Some (data, Some offset)) ->
  Buffer._enable l w
  = (Ok tt,
     {| heap := <[l := enabled b (_handle b)]> (heap w);
        gl_log := gl_log w ++
                  [glBindBuffer (_target b) (_handle b);
                   glBufferSubData (_target b) offset (arr_nbytes data) data;
                   glBindBuffer (_target b) (_handle b)];
        driver := driver w |}).
Proof.
  intros Hl Hh Hp. unfold Buffer._enable. run.
  replace (_handle b <? 0) with false by lia.
  rewrite Hp. run. cbv beta iota. run. cbv beta iota.
  do 3 run_buffer. same_world.
Qed.

Lemma enable_full l b data w :
  heap w !! l = Some b ->
  0 <= _handle b ->
  _pending_data b = Assigned (Some (data, None)) ->
  let h := driver w (gl_log w ++ deleted_calls b) in
  Buffer._enable l w
  = (Ok tt,
     {| heap := <[l := enabled b h]> (heap w);
        gl_log := gl_log w ++ deleted_calls b ++
                  [glGenBuffers 1; glBindBuffer (_target b) h;
                   glBufferData (_target b) (arr_nbytes data) data GL_DYNAMIC_DRAW;
                   glBindBuffer (_target b) h];
        driver := driver w |}).
Proof.
  intros Hl Hh Hp h. unfold Buffer._enable. run.
  replace (_handle b <? 0) with false by lia.
  rewrite Hp. run. cbv beta iota. run. cbv beta iota.
  run_buffer. subst h. unfold deleted_calls. simpl.
  destruct (0 <? _handle b); do 4 run_buffer; same_world.
Qed.

(** ** Buffer.set_data followed by Buffer._enable *)

(** C6: on a Buffer whose handle is negative, [_enable] returns at once:
    it raises nothing, issues no device call and leaves every object as
    it was. *)
Theorem C6_enable_failed_handle_is_noop (l : loc) (b : Buffer) (w : world) :
  heap w !! l = Some b ->
  _handle b < 0 ->
  Buffer._enable l w = (Ok tt, w).
Proof. apply enable_failed. Qed.

Lemma C6_witness :
  heap (world_of [failed_buffer]) !! 0%nat = Some failed_buffer /\
  _handle failed_buffer < 0 /\
  Buffer._enable 0%nat (world_of [failed_buffer]) = (Ok tt, world_of [failed_buffer]).
Proof.
  split; [reflexivity | split; [simpl; lia |]].
  apply (C6_enable_failed_handle_is_noop 0%nat failed_buffer (world_of [failed_buffer]));
    [reflexivity | simpl; lia].
Defined.

(** C1: [set_data(data)] without an offset compares the bytes of the data
    with the current size of the Buffer: the stored size, or 0 when the
    handle was negative, since the reset of a failed buffer is the first
    thing [set_data] does.  When they are equal it stages offset 0, and
    the next [_enable] binds the handle the object has, updates the
    sub-range and binds again: no handle is deleted or made.  When they
    differ it stages no offset, and the next [_enable] releases the handle
    if it is a live one, takes a new one from the driver, binds it,
    uploads the whole data and binds again. *)
Theorem C1_set_data_then_enable (l : loc) (b : Buffer) (data : ndarray) (w : world) :
  heap w !! l = Some b ->
  let target := _target b in
  let h0 := handle_after_reset b in
  exists w1 b1,
    Buffer.set_data l (PyArray data) None w = (Ok tt, w1) /\
    heap w1 !! l = Some b1 /\
    gl_log w1 = gl_log w /\
    (arr_nbytes data = size_after_reset b ->
       _pending_data b1 = Assigned (Some (data, Some 0)) /\
       exists w2 b2,
         Buffer._enable l w1 = (Ok tt, w2) /\
         heap w2 !! l = Some b2 /\
         _handle b2 = h0 /\
         gl_log w2 = gl_log w ++
                     [glBindBuffer target h0;
                      glBufferSubData target 0 (arr_nbytes data) data;
                      glBindBuffer target h0]) /\
    (arr_nbytes data <> size_after_reset b ->
       _pending_data b1 = Assigned (Some (data, None)) /\
       let released := if 0 <? h0 then [glDeleteBuffers [h0]] else [] in
       let h := driver w (gl_log w ++ released) in
       exists w2 b2,
         Buffer._enable l w1 = (Ok tt, w2) /\
         heap w2 !! l = Some b2 /\
         _handle b2 = h /\
         gl_log w2 = gl_log w ++ released ++
                     [glGenBuffers 1; glBindBuffer target h;
                      glBufferData target (arr_nbytes data) data GL_DYNAMIC_DRAW;
                      glBindBuffer target h]).
Proof.
  intros Hl target h0.
  assert (Hh0 : 0 <= h0).
  { subst h0. unfold handle_after_reset. destruct (_handle b <? 0) eqn:E; lia. }
  assert (H1 : heap (set_obj l (after_set_data b data) w) !! l
               = Some (after_set_data b data)) by lk.
  exists (set_obj l (after_set_data b data) w), (after_set_data b data).
  split; [now apply set_data_no_offset |].
  split; [exact H1 |]. split; [reflexivity |]. split.
  - intros Heq.
    assert (Hp : _pending_data (after_set_data b data)
                 = Assigned (Some (data, Some 0))).
    { simpl. unfold staged_offset. now rewrite (proj2 (Z.eqb_eq _ _) Heq). }
    split; [exact Hp |].
    eexists _, _. split; [exact (enable_fast _ _ _ _ _ H1 Hh0 Hp) |].
    split; [lk |]. split; reflexivity.
  - intros Hne.
    assert (Hp : _pending_data (after_set_data b data)
                 = Assigned (Some (data, None))).
    { simpl. unfold staged_offset. now rewrite (proj2 (Z.eqb_neq _ _) Hne). }
    split; [exact Hp |].
    eexists _, _. split; [exact (enable_full _ _ _ _ H1 Hh0 Hp) |].
    split; [lk |]. split; reflexivity.
Qed.

Lemma C1_witness :
  (exists w1 w2,
     Buffer.set_data 0%nat (PyArray three_floats) None (world_of [live_buffer])
     = (Ok tt, w1) /\
     Buffer._enable 0%nat w1 = (Ok tt, w2) /\
     gl_log w2 = [glBindBuffer GL_ARRAY_BUFFER 1;
                  glBufferSubData GL_ARRAY_BUFFER 0 12 three_floats;
                  glBindBuffer GL_ARRAY_BUFFER 1]) /\
  (exists w1 w2,
     Buffer.set_data 0%nat (PyArray one_float) None (world_of [live_buffer])
     = (Ok tt, w1) /\
     Buffer._enable 0%nat w1 = (Ok tt, w2) /\
     gl_log w2 = [glDeleteBuffers [1]; glGenBuffers 1;
                  glBindBuffer GL_ARRAY_BUFFER 1;
                  glBufferData GL_ARRAY_BUFFER 4 one_float GL_DYNAMIC_DRAW;
                  glBindBuffer GL_ARRAY_BUFFER 1]).
Proof.
  split.
  - destruct (C1_set_data_then_enable 0%nat live_buffer three_floats
                (world_of [live_buffer]) eq_refl)
      as (w1 & b1 & Hset & _ & _ & Hfast & _).
    destruct Hfast as (_ & w2 & b2 & Hen & _ & _ & Hlog); [reflexivity |].
    exists w1, w2. split; [exact Hset |]. split; [exact Hen | exact Hlog].
  - destruct (C1_set_data_then_enable 0%nat live_buffer one_float
                (world_of [live_buffer]) eq_refl)
      as (w1 & b1 & Hset & _ & _ & _ & Hfull).
    destruct Hfull as (_ & w2 & b2 & Hen & _ & _ & Hlog);
      [vm_compute; discriminate |].
    exists w1, w2. split; [exact Hset |]. split; [exact Hen | exact Hlog].
Defined.

(** Once pending data has been assigned ([set_data] or an earlier
    [_enable] has run), on a Buffer whose handle is not negative,
    [_enable] raises nothing, clears the pending data, and the last
    device call it makes binds the handle the object then has to the
    target of the object. *)
Lemma enable_ends_with_bind (l : loc) (b : Buffer)
    (p : option (ndarray * option Z)) (w : world) :
  heap w !! l = Some b ->
  0 <= _handle b ->
  _pending_data b = Assigned p ->
  exists w' b' calls,
    Buffer._enable l w = (Ok tt, w') /\
    heap w' !! l = Some b' /\
    _target b' = _target b /\
    _pending_data b' = Assigned None /\
    gl_log w' = gl_log w ++ calls ++ [glBindBuffer (_target b') (_handle b')].
Proof.
  intros Hl Hh Hp. destruct p as [[data [offset|]]|].
  - eexists _, _, [_; _]. split; [exact (enable_fast _ _ _ _ _ Hl Hh Hp) |].
    split; [lk |]. repeat split.
  - eexists _, _, (deleted_calls b ++ [_; _; _]).
    split; [exact (enable_full _ _ _ _ Hl Hh Hp) |].
    split; [lk |]. repeat split. simpl. now rewrite <- !app_assoc.
  - exists (logged (glBindBuffer (_target b) (_handle b)) w), b, [].
    split; [exact (enable_idle _ _ _ Hl Hh Hp) |].
    repeat split; assumption.
Qed.

(** C10: evaluation on an in-range partial update.  A Buffer is made
    with 12 bytes and enabled; [nbytes] is 12.  [set_data] of 4 bytes at
    offset 4 passes the bound check, and [nbytes] is 4 afterwards. *)
Theorem C10_partial_update_changes_nbytes :
  exists l w1 w2 w3,
    Buffer.__init__ GL_ARRAY_BUFFER (PyArray three_floats) (world_of [])
    = (Ok l, w1) /\
    Buffer._enable l w1 = (Ok tt, w2) /\
    Buffer.nbytes l w2 = (Ok 12, w2) /\
    4 + arr_nbytes one_float <= 12 /\
    Buffer.set_data l (PyArray one_float) (Some 4) w2 = (Ok tt, w3) /\
    Buffer.nbytes l w3 = (Ok 4, w3).
Proof.
  eexists _, _, _, _.
  split; [vm_compute; reflexivity |]. split; [vm_compute; reflexivity |].
  split; [reflexivity |]. split; [vm_compute; discriminate |].
  split; [vm_compute; reflexivity | reflexivity].
Qed.

(** C7: [set_data] on a view raises RuntimeError whatever the data and
    the offset, and neither the view nor any Buffer changes. *)
Theorem C7_set_data_on_view_fails (v : VertexBuffer) (data : pyobj)
    (offset : option Z) (w : world) :
  _isview v = true ->
  VertexBuffer.set_data data offset (v, w) = (Raise RuntimeError, (v, w)).
Proof.
  intros Hview. unfold VertexBuffer.set_data.
  erewrite mbind_ok by reflexivity. simpl. now rewrite Hview.
Qed.

Lemma C7_witness :
  VertexBuffer.set_data (PyArray three_floats) None
    (with_isview true (new_VertexBuffer 0), world_of [live_buffer])
  = (Raise RuntimeError,
     (with_isview true (new_VertexBuffer 0), world_of [live_buffer])).
Proof.
  apply (C7_set_data_on_view_fails (with_isview true (new_VertexBuffer 0))).
  reflexivity.
Defined.


(** ** Views by slice *)

Lemma or_default_nonzero x d : x <> 0 -> or_default (Some x) d = x.
Proof. intros H. unfold or_default. now rewrite (proj2 (Z.eqb_neq _ _) H). Qed.

(** What slicing does on a VertexBuffer that has a shape: the defaults
    replace a missing component and a component that is 0 alike. *)
Lemma getitem_slice (v : VertexBuffer) (n k : Z) (start stop step : option Z)
    (w : world) :
  _shape v = Some (n, k) ->
  let start' := or_default start 0 in
  let step' := or_default step 1 in
  let stop' := or_default stop n in
  VertexBuffer.__getitem__ v (PySlice start stop step) w
  = if (0 <=? start') && (1 <=? step') && (0 <? stop')
    then (Ok (view_of v (start' * _stride v + _offset v) (step' * _stride v)
                ((stop' - start') `div` step', k) (_type v)), w)
    else (Raise AssertionError, w).
Proof.
  intros Hs start' step' stop'. unfold VertexBuffer.__getitem__.
  rewrite mbind_assoc.
  assert (Hstop : match stop with
                  | Some stop => if stop =? 0 then shape_item (_shape v) 0
                                 else mret stop
                  | None => shape_item (_shape v) 0
                  end w = (Ok stop', w)).
  { subst stop'. rewrite Hs. unfold or_default.
    destruct stop as [z|]; [destruct (z =? 0) |]; reflexivity. }
  erewrite mbind_ok by exact Hstop.
  fold start' step'.
  destruct (0 <=? start'); simpl; [| reflexivity].
  destruct (1 <=? step'); simpl; [| reflexivity].
  destruct (0 <? stop'); simpl; [| reflexivity].
  rewrite Hs. reflexivity.
Qed.

(** C2, as stated, fails on a VertexBuffer made without data: it has no
    shape yet, and slicing it raises TypeError. *)
Lemma C2_counterexample :
  VertexBuffer.__init__ PyNone (PyBuffer 0) (world_of [live_buffer])
  = (Ok (new_VertexBuffer 0), world_of [live_buffer]) /\
  VertexBuffer.__getitem__ (new_VertexBuffer 0)
    (PySlice (Some 0) (Some 3) (Some 1)) (world_of [live_buffer])
  = (Raise TypeError, world_of [live_buffer]).
Proof. split; reflexivity. Qed.

(** C2, amended: on a VertexBuffer whose data has been set, so that it has
    a shape (n, k), the slice [start:stop:step] with start >= 0, step >= 1
    and stop > 0 returns a view on the same Buffer object, with
    shape ((stop - start) // step, k), stride step * stride,
    offset start * stride + offset and the type of the source; no object
    is made or changed in the store. *)
Theorem C2_slice_view (v : VertexBuffer) (n k start stop step : Z) (w : world) :
  _shape v = Some (n, k) ->
  0 <= start -> 1 <= step -> 0 < stop ->
  VertexBuffer.__getitem__ v (PySlice (Some start) (Some stop) (Some step)) w
  = (Ok {| _isview := true;
           _buffer := _buffer v;
           _offset := start * _stride v + _offset v;
           _stride := step * _stride v;
           _shape := Some ((stop - start) `div` step, k);
           _type := _type v |}, w).
Proof.
  intros Hs Hstart Hstep Hstop.
  rewrite (getitem_slice v n k _ _ _ w Hs).
  assert (or_default (Some start) 0 = start) as ->.
  { unfold or_default. destruct (start =? 0) eqn:E; [lia | reflexivity]. }
  rewrite !or_default_nonzero by lia.
  replace (0 <=? start) with true by lia.
  replace (1 <=? step) with true by lia.
  replace (0 <? stop) with true by lia.
  reflexivity.
Qed.

Lemma C2_witness :
  VertexBuffer.__getitem__ ten_triples (PySlice (Some 2) (Some 9) (Some 2))
    (world_of [live_buffer])
  = (Ok {| _isview := true; _buffer := 0; _offset := 24; _stride := 24;
           _shape := Some (3, 3); _type := TName "float32" |},
     world_of [live_buffer]).
Proof.
  apply (C2_slice_view ten_triples 10 3 2 9 2 (world_of [live_buffer]));
    [reflexivity | lia | lia | lia].
Defined.

(** C9: evaluation on slices with a zero component.  On the VertexBuffer
    made from ten float32 triples, [v[0:0]] is the view of all ten
    elements, and [v[:5:0]] is the view with step 1: a stop or a step that
    is 0 is replaced by its default before the assertions look at it. *)
Theorem C9_zero_stop_and_zero_step_give_views :
  exists v w,
    VertexBuffer.__init__ (PyArray ten_by_three) PyNone (world_of []) = (Ok v, w) /\
    v = ten_triples /\
    VertexBuffer.__getitem__ v (PySlice (Some 0) (Some 0) None) w
    = (Ok {| _isview := true; _buffer := 0; _offset := 0; _stride := 12;
             _shape := Some (10, 3); _type := TName "float32" |}, w) /\
    VertexBuffer.__getitem__ v (PySlice None (Some 5) (Some 0)) w
    = (Ok {| _isview := true; _buffer := 0; _offset := 0; _stride := 12;
             _shape := Some (5, 3); _type := TName "float32" |}, w).
Proof.
  eexists _, _. split; [vm_compute; reflexivity |].
  split; [reflexivity |]. split; reflexivity.
Qed.

(** The rest of what C9 says holds: a missing component takes its
    default, and a negative start, step or stop fails the assertion. *)
Lemma getitem_slice_defaults (v : VertexBuffer) (n k : Z) (w : world) :
  _shape v = Some (n, k) -> 0 < n ->
  VertexBuffer.__getitem__ v (PySlice None None None) w
  = (Ok (view_of v (_offset v) (_stride v) (n, k) (_type v)), w).
Proof.
  intros Hs Hn. rewrite (getitem_slice v n k _ _ _ w Hs). simpl.
  replace (0 <? n) with true by lia. simpl.
  rewrite Z.sub_0_r, Z.div_1_r.
  now destruct (_stride v).
Qed.

Lemma getitem_slice_negative (v : VertexBuffer) (n k start stop step : Z)
    (w : world) :
  _shape v = Some (n, k) ->
  start < 0 \/ step < 0 \/ stop < 0 ->
  VertexBuffer.__getitem__ v (PySlice (Some start) (Some stop) (Some step)) w
  = (Raise AssertionError, w).
Proof.
  intros Hs H. rewrite (getitem_slice v n k _ _ _ w Hs).
  destruct H as [H | [H | H]].
  - rewrite (or_default_nonzero start) by lia.
    now replace (0 <=? start) with false by lia.
  - rewrite (or_default_nonzero step) by lia.
    replace (1 <=? step) with false by lia.
    now rewrite andb_false_r.
  - rewrite (or_default_nonzero stop) by lia.
    replace (0 <? stop) with false by lia.
    now rewrite andb_false_r.
Qed.

(** ** Views by field name *)

Lemma mbind_inv {S A B} (m : M S A) (k : A -> M S B) s r s' :
  (m ≫= k) s = (r, s') ->
  (exists a s1, m s = (Ok a, s1) /\ k a s1 = (r, s')) \/
  (exists e, m s = (Raise e, s') /\ r = Raise e).
Proof.
  unfold mbind, M_bind, bind. destruct (m s) as [[a|e] s1]; intros H.
  - left. eauto.
  - right. exists e. now inversion H.
Qed.

Lemma ndim_1_or_2 (a : ndarray) :
  bool_decide (arr_ndim a ∈ [1; 2]) = true ->
  (exists s0, arr_shape a = [s0]) \/ (exists s0 s1, arr_shape a = [s0; s1]).
Proof.
  intros H. apply bool_decide_eq_true_1 in H. unfold arr_ndim in H.
  destruct (arr_shape a) as [|s0 [|s1 [|s2 rest]]]; eauto.
  - exfalso. simpl length in H.
    apply elem_of_cons in H as [H | H]; [lia |].
    apply elem_of_cons in H as [H | H]; [lia |].
    now apply elem_of_nil in H.
  - exfalso. simpl length in H.
    apply elem_of_cons in H as [H | H]; [lia |].
    apply elem_of_cons in H as [H | H]; [lia |].
    now apply elem_of_nil in H.
Qed.

#[local] Opaque Buffer.set_data.

(** What [set_data] can have assigned to [self] when it returns or
    raises: nothing, or type and shape, or type, shape and stride. *)
Lemma set_data_self data offset v w r v' w' :
  VertexBuffer.set_data data offset (v, w) = (r, (v', w')) ->
  v' = v \/
  exists t sh,
    v' = with_shape sh (with_type t v) \/
    exists st, v' = with_stride st (with_shape sh (with_type t v)).
Proof.
  unfold VertexBuffer.set_data. intros H.
  unfold mbind, M_bind, bind, self_get, self_set, on_world, shape_item,
    assert, tuple_item, from_result, mret, M_ret, ret, raise in H.
  cbn [fst snd] in H.
  repeat case_match; simplify_eq; cbn [fst snd].
  all: first
    [ solve [left; reflexivity]
    | solve [right; eexists _, _; left; reflexivity]
    | solve [right; eexists _, _; right; eexists; reflexivity]
    | exfalso;
      match goal with
      | Hn : bool_decide (arr_ndim _ ∈ _) = true, H0 : _ !! 0%nat = None |- _ =>
          simpl in H0;
          destruct (ndim_1_or_2 _ Hn) as [[s0 E] | (s0 & s1 & E)];
          rewrite E in H0; discriminate
      end ].
Qed.

Lemma set_data_typed_has_shape data offset v w r v' w' :
  VertexBuffer.set_data data offset (v, w) = (r, (v', w')) ->
  typed_has_shape v -> typed_has_shape v'.
Proof.
  intros H Hv.
  destruct (set_data_self _ _ _ _ _ _ _ H) as [-> | (t & sh & [-> | [st ->]])];
    [assumption | |]; intros _; eexists; reflexivity.
Qed.

Lemma set_data_own_at_zero data offset v w r v' w' :
  VertexBuffer.set_data data offset (v, w) = (r, (v', w')) ->
  own_at_zero v -> own_at_zero v'.
Proof.
  intros H Hv.
  destruct (set_data_self _ _ _ _ _ _ _ H) as [-> | (t & sh & [-> | [st ->]])];
    assumption.
Qed.

#[local] Transparent Buffer.set_data.

Lemma init_typed_has_shape data buffer w v w' :
  VertexBuffer.__init__ data buffer w = (Ok v, w') -> typed_has_shape v.
Proof.
  unfold VertexBuffer.__init__. intros H.
  apply mbind_inv in H as [(l & w1 & _ & H) | (e & _ & [=])].
  assert (H0 : typed_has_shape (new_VertexBuffer l)) by (intros []; reflexivity).
  destruct data; try (now inversion H; subst);
    unfold with_self in H;
    match type of H with
    | context [VertexBuffer.set_data ?d ?o ?s] =>
        destruct (VertexBuffer.set_data d o s) as [[u|e] [v1 w2]] eqn:E;
        inversion H; subst;
        exact (set_data_typed_has_shape _ _ _ _ _ _ _ E H0)
    end.
Qed.

Lemma getitem_typed_has_shape v index w v' w' :
  VertexBuffer.__getitem__ v index w = (Ok v', w') -> typed_has_shape v'.
Proof.
  unfold VertexBuffer.__getitem__. intros H.
  apply mbind_inv in H as [(p & w1 & _ & H) | (e & _ & [=])].
  destruct p as [[[[o s] t] s0] s1].
  apply mbind_inv in H as [(nb & w2 & _ & H) | (e & _ & [=])].
  inversion H; subst. intros _. eexists; reflexivity.
Qed.

Lemma built_typed_has_shape v : built v -> typed_has_shape v.
Proof.
  induction 1.
  - eapply init_typed_has_shape; eassumption.
  - eapply set_data_typed_has_shape; eassumption.
  - eapply getitem_typed_has_shape; eassumption.
Qed.

Lemma init_own_at_zero data buffer w v w' :
  VertexBuffer.__init__ data buffer w = (Ok v, w') -> own_at_zero v.
Proof.
  unfold VertexBuffer.__init__. intros H.
  apply mbind_inv in H as [(l & w1 & _ & H) | (e & _ & [=])].
  assert (H0 : own_at_zero (new_VertexBuffer l)) by (intros _; reflexivity).
  destruct data; try (now inversion H; subst);
    unfold with_self in H;
    match type of H with
    | context [VertexBuffer.set_data ?d ?o ?s] =>
        destruct (VertexBuffer.set_data d o s) as [[u|e] [v1 w2]] eqn:E;
        inversion H; subst;
        exact (set_data_own_at_zero _ _ _ _ _ _ _ E H0)
    end.
Qed.

Lemma getitem_own_at_zero v index w v' w' :
  VertexBuffer.__getitem__ v index w = (Ok v', w') -> own_at_zero v'.
Proof.
  unfold VertexBuffer.__getitem__. intros H.
  apply mbind_inv in H as [(p & w1 & _ & H) | (e & _ & [=])].
  destruct p as [[[[o s] t] s0] s1].
  apply mbind_inv in H as [(nb & w2 & _ & H) | (e & _ & [=])].
  inversion H; subst. intros [=].
Qed.

Lemma built_own_at_zero v : built v -> own_at_zero v.
Proof.
  induction 1.
  - eapply init_own_at_zero; eassumption.
  - eapply set_data_own_at_zero; eassumption.
  - eapply getitem_own_at_zero; eassumption.
Qed.

Lemma built_record_buffer : built record_buffer.
Proof.
  apply (built_init (PyArray ten_records) PyNone (world_of [])
           record_buffer
           (world_of [after_set_data (new_Buffer GL_ARRAY_BUFFER) ten_records])).
  vm_compute. reflexivity.
Qed.

(** C3: indexing a VertexBuffer by a string raises RuntimeError when its
    type is not a dictionary of fields; when it is one, a name that is not
    a key raises ValueError, and a key gives a view on the same Buffer
    object, with the field's offset added to the offset, the same stride,
    the field's scalar kind as type, and the shape (count of the source,
    component count of the field).  No object is made or changed in the
    store. *)
Theorem C3_getitem_by_name (v : VertexBuffer) (name : string) (w : world) :
  built v ->
  match _type v with
  | TFields fields =>
      match fields !! name with
      | Some (kind, count, offset) =>
          exists n k,
            _shape v = Some (n, k) /\
            VertexBuffer.__getitem__ v (PyStr name) w
            = (Ok {| _isview := true;
                     _buffer := _buffer v;
                     _offset := offset + _offset v;
                     _stride := _stride v;
                     _shape := Some (n, count);
                     _type := TName kind |}, w)
      | None =>
          VertexBuffer.__getitem__ v (PyStr name) w = (Raise ValueError, w)
      end
  | _ => VertexBuffer.__getitem__ v (PyStr name) w = (Raise RuntimeError, w)
  end.
Proof.
  intros Hb. apply built_typed_has_shape in Hb.
  unfold VertexBuffer.__getitem__.
  destruct (_type v) as [| t | fields] eqn:Ht; try reflexivity.
  destruct (fields !! name) as [[[kind count] offset]|] eqn:Hf; [| reflexivity].
  destruct Hb as [[n k] Hs]; [rewrite Ht; discriminate |].
  exists n, k. split; [exact Hs |]. rewrite Hs. reflexivity.
Qed.

Lemma C3_witness :
  built record_buffer /\
  exists n k,
    _shape record_buffer = Some (n, k) /\
    VertexBuffer.__getitem__ record_buffer (PyStr "col") (world_of [live_buffer])
    = (Ok {| _isview := true; _buffer := 0; _offset := 12 + 0; _stride := 20;
             _shape := Some (n, 4); _type := TName "uint8" |},
       world_of [live_buffer]).
Proof.
  split; [exact built_record_buffer |].
  exact (C3_getitem_by_name record_buffer "col" (world_of [live_buffer])
           built_record_buffer).
Defined.

(** ** VertexBuffer.set_data on plain arrays *)

Lemma tuple_count_ok (m : Z) :
  1 <= m <= 4 -> bool_decide (m ∈ [1; 2; 3; 4]) = true.
Proof.
  intros H. apply bool_decide_eq_true_2.
  assert (m = 1 \/ m = 2 \/ m = 3 \/ m = 4) as [-> | [-> | [-> | ->]]] by lia;
    repeat constructor.
Qed.

#[local] Opaque Buffer.set_data.

(** What [set_data(data)] does with a plain array of one or two
    dimensions, on a VertexBuffer that is not a view. *)
Lemma set_data_plain (v : VertexBuffer) (w : world) (b : Buffer) (k : scalar)
    (shape : list Z) (base : nat) (n m : Z) :
  _isview v = false ->
  _offset v = 0 ->
  heap w !! _buffer v = Some b ->
  (shape = [n] /\ m = 1) \/ (shape = [n; m] /\ 1 <= m <= 4) ->
  let a := {| arr_dtype := Plain k; arr_shape := shape; arr_base := base |} in
  let a' := if in_DTYPES (scalar_name k) then a else astype_float32 a in
  VertexBuffer.set_data (PyArray a) None (v, w)
  = (Ok tt,
     ({| _isview := false; _buffer := _buffer v; _offset := 0;
         _stride := dtype_itemsize (arr_dtype a') * m;
         _shape := Some (n, m);
         _type := TName (dtype_name (arr_dtype a')) |},
      set_obj (_buffer v) (after_set_data b a') w)).
Proof.
  intros Hview Hoff Hb Hshape a a'. subst a a'.
  unfold VertexBuffer.set_data.
  unfold mbind, M_bind, bind, self_get, self_set, on_world, shape_item,
    assert, tuple_item, from_result, mret, M_ret, ret, raise.
  cbn [fst snd]. rewrite Hview. unfold arr_ndim.
  destruct Hshape as [[-> ->] | [-> Hm]];
    destruct (in_DTYPES (scalar_name k)) eqn:Hk; cbn [arr_dtype arr_shape negb length].
  - change (bool_decide (Z.of_nat 1 ∈ [1; 2])) with true.
    change (Z.of_nat 1 =? 2) with false.
    cbn. rewrite Hk. cbn. rewrite Hoff. cbn.
    rewrite (set_data_no_offset _ _ _ _ Hb).
    unfold with_stride, with_shape, with_type; simpl; rewrite Hview, Hoff; reflexivity.
  - change (bool_decide (Z.of_nat 1 ∈ [1; 2])) with true.
    change (Z.of_nat 1 =? 2) with false.
    cbn. rewrite Hk. cbn. rewrite Hoff. cbn.
    rewrite (set_data_no_offset _ _ _ _ Hb).
    unfold with_stride, with_shape, with_type; simpl; rewrite Hview, Hoff; reflexivity.
  - change (bool_decide (Z.of_nat 2 ∈ [1; 2])) with true.
    change (Z.of_nat 2 =? 2) with true.
    cbn. rewrite (tuple_count_ok m Hm). cbn. rewrite Hk. cbn. rewrite Hoff. cbn.
    rewrite (set_data_no_offset _ _ _ _ Hb).
    unfold with_stride, with_shape, with_type; simpl; rewrite Hview, Hoff; reflexivity.
  - change (bool_decide (Z.of_nat 2 ∈ [1; 2])) with true.
    change (Z.of_nat 2 =? 2) with true.
    cbn. rewrite (tuple_count_ok m Hm). cbn. rewrite Hk. cbn. rewrite Hoff. cbn.
    rewrite (set_data_no_offset _ _ _ _ Hb).
    unfold with_stride, with_shape, with_type; simpl; rewrite Hview, Hoff; reflexivity.
Qed.

#[local] Transparent Buffer.set_data.

(** [VertexBuffer(data)] on a plain array: a new Buffer object, fed by
    [set_data]. *)
Lemma init_plain (w : world) (k : scalar) (shape : list Z) (base : nat) (n m : Z) :
  (shape = [n] /\ m = 1) \/ (shape = [n; m] /\ 1 <= m <= 4) ->
  let a := {| arr_dtype := Plain k; arr_shape := shape; arr_base := base |} in
  let a' := if in_DTYPES (scalar_name k) then a else astype_float32 a in
  let l := length (heap w) in
  VertexBuffer.__init__ (PyArray a) PyNone w
  = (Ok {| _isview := false; _buffer := l; _offset := 0;
           _stride := dtype_itemsize (arr_dtype a') * m;
           _shape := Some (n, m);
           _type := TName (dtype_name (arr_dtype a')) |},
     set_obj l (after_set_data (new_Buffer GL_ARRAY_BUFFER) a')
       (with_heap (heap w ++ [new_Buffer GL_ARRAY_BUFFER]) w)).
Proof.
  intros Hshape a a' l. unfold VertexBuffer.__init__.
  erewrite mbind_ok by reflexivity. cbv beta iota. unfold with_self.
  fold l. fold (new_VertexBuffer l).
  rewrite (set_data_plain (new_VertexBuffer l) _ (new_Buffer GL_ARRAY_BUFFER)
             k shape base n m eq_refl eq_refl); [reflexivity | | exact Hshape].
  simpl. now apply list_lookup_middle.
Qed.

(** C8: [VertexBuffer(data)] on a (100, 3) array of float32 has shape
    (100, 3), type "float32" and stride 12.  On every plain array of one
    dimension, or of two with a second dimension in 1..4, whose dtype name
    is not a key of DTYPES, [VertexBuffer(data)], and [set_data(data)] on
    every VertexBuffer that is not a view (whose Buffer is an object of
    the store), raise nothing; the type
    becomes "float32", the stride four bytes per component, and the data
    staged in the Buffer is the array converted to float32. *)
Theorem C8_plain_arrays_and_coercion :
  (forall (base : nat) (w : world),
     exists v w',
       VertexBuffer.__init__
         (PyArray {| arr_dtype := Plain float32; arr_shape := [100; 3];
                     arr_base := base |}) PyNone w = (Ok v, w') /\
       _shape v = Some (100, 3) /\
       _type v = TName "float32" /\
       _stride v = 12) /\
  (forall (k : scalar) (shape : list Z) (base : nat) (n m : Z) (w : world),
     in_DTYPES (scalar_name k) = false ->
     (shape = [n] /\ m = 1) \/ (shape = [n; m] /\ 1 <= m <= 4) ->
     let a := {| arr_dtype := Plain k; arr_shape := shape; arr_base := base |} in
     (exists v w' b o,
        VertexBuffer.__init__ (PyArray a) PyNone w = (Ok v, w') /\
        _type v = TName "float32" /\
        _shape v = Some (n, m) /\
        _stride v = 4 * m /\
        heap w' !! _buffer v = Some b /\
        _pending_data b = Assigned (Some (astype_float32 a, o))) /\
     (forall (v : VertexBuffer) (b : Buffer),
        built v ->
        _isview v = false ->
        heap w !! _buffer v = Some b ->
        exists v' w' b' o,
          VertexBuffer.set_data (PyArray a) None (v, w) = (Ok tt, (v', w')) /\
          _type v' = TName "float32" /\
          _shape v' = Some (n, m) /\
          _stride v' = 4 * m /\
          _buffer v' = _buffer v /\
          heap w' !! _buffer v = Some b' /\
          _pending_data b' = Assigned (Some (astype_float32 a, o)))).
Proof.
  split.
  - intros base w. eexists _, _.
    split; [apply (init_plain w float32 [100; 3] base 100 3); right; split;
            [reflexivity | lia] |].
    repeat split.
  - intros k shape base n m w Hk Hshape a. split.
    + eexists _, _, _, _.
      split; [exact (init_plain w k shape base n m Hshape) |].
      rewrite Hk. repeat split.
      * apply list_lookup_insert_eq. simpl. rewrite length_app. simpl. lia.
      * reflexivity.
    + intros v b Hbuilt Hview Hb.
      pose proof (built_own_at_zero v Hbuilt Hview) as Hoff.
      eexists _, _, _, _.
      split; [exact (set_data_plain v w b k shape base n m Hview Hoff Hb Hshape) |].
      rewrite Hk. repeat split.
      * lk.
      * reflexivity.
Qed.

Lemma C8_witness :
  exists v w',
    VertexBuffer.__init__ (PyArray ten_doubles) PyNone (world_of []) = (Ok v, w') /\
    _type v = TName "float32" /\
    _shape v = Some (10, 1) /\
    _stride v = 4 * 1.
Proof.
  destruct (proj2 C8_plain_arrays_and_coercion float64 [10] 3%nat 10 1
              (world_of []) eq_refl (or_introl (conj eq_refl eq_refl)))
    as [(v & w' & b & o & Hinit & Ht & Hs & Hst & _) _].
  exists v, w'. repeat split; assumption.
Defined.

(** ** More on class Buffer *)

Lemma set_data_with_offset l b data o w :
  heap w !! l = Some b ->
  Buffer.set_data l (PyArray data) (Some o) w
  = if o + arr_nbytes data <=? size_after_reset b
    then (Ok tt,
          set_obj l {| _target := _target b;
                       _handle := handle_after_reset b;
                       _buffer_size := arr_nbytes data;
                       _pending_data := Assigned (Some (data, Some o)) |} w)
    else (Raise AssertionError, set_obj l (after_reset b) w).
Proof.
  intros Hl. unfold Buffer.set_data, after_reset, handle_after_reset,
    size_after_reset.
  run. destruct (_handle b <? 0) eqn:Hh.
  - do 3 run. simpl.
    destruct (o + arr_nbytes data <=? 0) eqn:Ho.
    + repeat run. same_world.
    + rewrite mbind_assoc. unfold mbind, M_bind, bind, assert.
      same_world.
  - do 2 run.
    destruct (o + arr_nbytes data <=? _buffer_size b) eqn:Ho.
    + repeat run. same_world.
    + rewrite mbind_assoc. unfold mbind, M_bind, bind, assert.
      simpl. unfold set_obj, with_heap. rewrite list_insert_id by exact Hl.
      now destruct w.
Qed.

(** X1: [Buffer(target, ...)] with a target that is neither of the two
    buffer targets raises ValueError and makes no object. *)
Theorem Buffer_init_rejects_other_targets (target : GLenum) (data : pyobj)
    (w : world) :
  target <> GL_ARRAY_BUFFER ->
  target <> GL_ELEMENT_ARRAY_BUFFER ->
  Buffer.__init__ target data w = (Raise ValueError, w).
Proof.
  intros H1 H2. unfold Buffer.__init__.
  rewrite bool_decide_eq_false_2; [reflexivity |].
  intros H. apply elem_of_cons in H as [H | H]; [contradiction |].
  apply elem_of_cons in H as [H | H]; [contradiction |].
  now apply elem_of_nil in H.
Qed.

Lemma Buffer_init_rejects_other_targets_witness :
  Buffer.__init__ GL_FLOAT (PyArray three_floats) (world_of [live_buffer])
  = (Raise ValueError, world_of [live_buffer]).
Proof.
  apply Buffer_init_rejects_other_targets; discriminate.
Defined.

(** X2: [set_data] with data that is not an array raises ValueError before
    anything else: no attribute changes, not even the reset of a failed
    buffer. *)
Theorem Buffer_set_data_rejects_non_arrays (l : loc) (data : pyobj)
    (offset : option Z) (w : world) :
  (forall a, data <> PyArray a) ->
  Buffer.set_data l data offset w = (Raise ValueError, w).
Proof.
  intros H. destruct data; try reflexivity. now destruct (H a).
Qed.

Lemma Buffer_set_data_rejects_non_arrays_witness :
  Buffer.set_data 0 (PyInt 7) None (world_of [failed_buffer])
  = (Raise ValueError, world_of [failed_buffer]).
Proof.
  apply Buffer_set_data_rejects_non_arrays. discriminate.
Defined.

(** [set_data] on a location that names an object, whatever the data and
    the offset: the outcome, in full. *)
Lemma Buffer_set_data_cases l b data offset w :
  heap w !! l = Some b ->
  exists r b', Buffer.set_data l data offset w = (r, set_obj l b' w) /\
               _target b' = _target b.
Proof.
  intros Hl. destruct data as [| | | |a|];
    try (exists (Raise ValueError), b; split; [| reflexivity];
         unfold set_obj, with_heap; rewrite list_insert_id by exact Hl;
         now destruct w).
  destruct offset as [o|].
  - rewrite (set_data_with_offset _ _ _ _ _ Hl).
    destruct (o + arr_nbytes a <=? size_after_reset b);
      eexists _, _; split; try reflexivity.
    unfold after_reset. now destruct (_handle b <? 0).
  - rewrite (set_data_no_offset _ _ _ _ Hl). eexists _, _. split; reflexivity.
Qed.

(** X3: staging is kept apart from the device.  Whatever its arguments and
    whether it returns or raises, [set_data] makes no device call, gives
    no object a new place, leaves every other object as it was, and keeps
    the target of its own. *)
Theorem Buffer_set_data_touches_only_its_object (l : loc) (b : Buffer)
    (data : pyobj) (offset : option Z) (w : world) :
  heap w !! l = Some b ->
  exists r w' b',
    Buffer.set_data l data offset w = (r, w') /\
    gl_log w' = gl_log w /\
    length (heap w') = length (heap w) /\
    heap w' !! l = Some b' /\
    _target b' = _target b /\
    forall l', l' <> l -> heap w' !! l' = heap w !! l'.
Proof.
  intros Hl.
  destruct (Buffer_set_data_cases l b data offset w Hl) as (r & b' & H & Ht).
  exists r, (set_obj l b' w), b'. split; [exact H |].
  split; [reflexivity |]. split; [apply length_insert |].
  split; [lk |]. split; [exact Ht |].
  intros l' Hne. simpl. now apply list_lookup_insert_ne.
Qed.

Lemma Buffer_set_data_touches_only_its_object_witness :
  exists r w',
    Buffer.set_data 1 (PyArray three_floats) (Some 100)
      (world_of [live_buffer; failed_buffer]) = (r, w') /\
    gl_log w' = [] /\
    heap w' !! 0%nat = Some live_buffer.
Proof.
  destruct (Buffer_set_data_touches_only_its_object 1 failed_buffer
              (PyArray three_floats) (Some 100)
              (world_of [live_buffer; failed_buffer]) eq_refl)
    as (r & w' & b' & H & Hlog & _ & _ & _ & Hother).
  exists r, w'. split; [exact H |]. split; [exact Hlog |].
  etrans; [apply Hother; discriminate | reflexivity].
Defined.

(** X4: a sub-range update.  [set_data(data, offset)] with
    offset + data.nbytes within the size of a buffer that has not failed
    stages the offset as given (it need not be positive), and the next
    [_enable] binds the handle the object has, writes the data at that
    offset and binds again; no buffer object is made or deleted. *)
Theorem Buffer_set_data_at_offset_then_enable (l : loc) (b : Buffer)
    (data : ndarray) (o : Z) (w : world) :
  heap w !! l = Some b ->
  0 <= _handle b ->
  o + arr_nbytes data <= _buffer_size b ->
  exists w1 w2,
    Buffer.set_data l (PyArray data) (Some o) w = (Ok tt, w1) /\
    gl_log w1 = gl_log w /\
    Buffer._enable l w1 = (Ok tt, w2) /\
    gl_log w2 = gl_log w ++
                [glBindBuffer (_target b) (_handle b);
                 glBufferSubData (_target b) o (arr_nbytes data) data;
                 glBindBuffer (_target b) (_handle b)] /\
    heap w2 !! l = Some {| _target := _target b; _handle := _handle b;
                           _buffer_size := arr_nbytes data;
                           _pending_data := Assigned None |}.
Proof.
  intros Hl Hh Ho.
  pose proof (set_data_with_offset l b data o w Hl) as Hset.
  unfold size_after_reset, handle_after_reset in Hset.
  replace (_handle b <? 0) with false in Hset by lia.
  replace (o + arr_nbytes data <=? _buffer_size b) with true in Hset by lia.
  eexists _, _. split; [exact Hset |]. split; [reflexivity |].
  split; [eapply enable_fast; [lk | exact Hh | reflexivity] |].
  split; [reflexivity | lk].
Qed.

Lemma Buffer_set_data_at_offset_then_enable_witness :
  exists w1 w2,
    Buffer.set_data 0 (PyArray one_float) (Some 8) (world_of [live_buffer])
    = (Ok tt, w1) /\
    Buffer._enable 0 w1 = (Ok tt, w2) /\
    gl_log w2 = [glBindBuffer GL_ARRAY_BUFFER 1;
                 glBufferSubData GL_ARRAY_BUFFER 8 4 one_float;
                 glBindBuffer GL_ARRAY_BUFFER 1].
Proof.
  destruct (Buffer_set_data_at_offset_then_enable 0 live_buffer one_float 8
              (world_of [live_buffer]) eq_refl)
    as (w1 & w2 & Hset & _ & Hen & Hlog & _).
  - simpl. lia.
  - vm_compute. discriminate.
  - exists w1, w2. split; [exact Hset |]. split; [exact Hen | exact Hlog].
Defined.

(** X5: [set_data(data, offset)] with offset + data.nbytes over the size
    raises AssertionError and stages nothing: what was pending stays
    pending.  A buffer that has not failed is left as it was; a failed one
    has been reset by then, handle and size 0, and is compared with 0. *)
Theorem Buffer_set_data_offset_out_of_range (l : loc) (b : Buffer)
    (data : ndarray) (o : Z) (w : world) :
  heap w !! l = Some b ->
  (if _handle b <? 0 then 0 else _buffer_size b) < o + arr_nbytes data ->
  exists w' b',
    Buffer.set_data l (PyArray data) (Some o) w = (Raise AssertionError, w') /\
    heap w' !! l = Some b' /\
    _pending_data b' = _pending_data b /\
    gl_log w' = gl_log w /\
    (0 <= _handle b -> w' = w) /\
    (_handle b < 0 -> _handle b' = 0 /\ _buffer_size b' = 0).
Proof.
  intros Hl Ho.
  pose proof (set_data_with_offset l b data o w Hl) as Hset.
  unfold size_after_reset in Hset.
  replace (o + arr_nbytes data <=? (if _handle b <? 0 then 0 else _buffer_size b))
    with false in Hset by lia.
  exists (set_obj l (after_reset b) w), (after_reset b).
  split; [exact Hset |]. split; [lk |]. unfold after_reset.
  destruct (_handle b <? 0) eqn:Hh.
  - repeat split; try reflexivity; lia.
  - repeat split; try lia.
    intros _. unfold set_obj, with_heap. rewrite list_insert_id by exact Hl.
    now destruct w.
Qed.

Lemma Buffer_set_data_offset_out_of_range_witness :
  Buffer.set_data 0 (PyArray three_floats) (Some 4) (world_of [live_buffer])
  = (Raise AssertionError, world_of [live_buffer]).
Proof.
  destruct (Buffer_set_data_offset_out_of_range 0 live_buffer three_floats 4
              (world_of [live_buffer]) eq_refl)
    as (w' & b' & Hset & _ & _ & _ & Hsame & _).
  - vm_compute. reflexivity.
  - rewrite Hset. f_equal. apply Hsame. simpl. lia.
Defined.

Lemma enable_unset l b w :
  heap w !! l = Some b ->
  0 <= _handle b ->
  _pending_data b = Unset ->
  Buffer._enable l w = (Raise AttributeError, w).
Proof.
  intros Hl Hh Hp. unfold Buffer._enable. run.
  replace (_handle b <? 0) with false by lia.
  rewrite Hp. reflexivity.
Qed.

(** X6: pending data is used once.  After an [_enable] that returned, on a
    Buffer with pending data assigned, a second [_enable] makes exactly one
    device call, the bind of the handle the object has, when that handle
    is not negative, and none when it is. *)
Theorem Buffer_enable_twice (l : loc) (b : Buffer)
    (p : option (ndarray * option Z)) (w : world) :
  heap w !! l = Some b ->
  0 <= _handle b ->
  _pending_data b = Assigned p ->
  exists w1 b1,
    Buffer._enable l w = (Ok tt, w1) /\
    heap w1 !! l = Some b1 /\
    (0 <= _handle b1 ->
       Buffer._enable l w1
       = (Ok tt, logged (glBindBuffer (_target b) (_handle b1)) w1)) /\
    (_handle b1 < 0 -> Buffer._enable l w1 = (Ok tt, w1)).
Proof.
  intros Hl Hh Hp.
  assert (Hnext : forall w1 b1,
            heap w1 !! l = Some b1 -> _target b1 = _target b ->
            _pending_data b1 = Assigned None ->
            (0 <= _handle b1 ->
               Buffer._enable l w1
               = (Ok tt, logged (glBindBuffer (_target b) (_handle b1)) w1)) /\
            (_handle b1 < 0 -> Buffer._enable l w1 = (Ok tt, w1))).
  { intros w1 b1 H1 Ht Hp1. split; intros H.
    - rewrite <- Ht. now apply enable_idle.
    - now apply (enable_failed l b1). }
  destruct p as [[data [offset|]]|].
  - eexists _, _. split; [exact (enable_fast _ _ _ _ _ Hl Hh Hp) |].
    split; [lk |]. apply Hnext; [lk | reflexivity | reflexivity].
  - eexists _, _. split; [exact (enable_full _ _ _ _ Hl Hh Hp) |].
    split; [lk |]. apply Hnext; [lk | reflexivity | reflexivity].
  - exists (logged (glBindBuffer (_target b) (_handle b)) w), b.
    split; [exact (enable_idle _ _ _ Hl Hh Hp) |].
    split; [exact Hl |]. apply Hnext; [exact Hl | reflexivity | exact Hp].
Qed.

Lemma Buffer_enable_twice_witness :
  exists w1 w2,
    Buffer._enable 0 (world_of [after_set_data live_buffer one_float])
    = (Ok tt, w1) /\
    Buffer._enable 0 w1 = (Ok tt, w2) /\
    gl_log w2 = gl_log w1 ++ [glBindBuffer GL_ARRAY_BUFFER 1].
Proof.
  destruct (Buffer_enable_twice 0 (after_set_data live_buffer one_float)
              (Some (one_float, None))
              (world_of [after_set_data live_buffer one_float]) eq_refl)
    as (w1 & b1 & H1 & Hb1 & Hpos & _).
  - vm_compute. discriminate.
  - reflexivity.
  - exists w1, (logged (glBindBuffer GL_ARRAY_BUFFER (_handle b1)) w1).
    vm_compute in H1. inversion H1; subst w1. vm_compute in Hb1.
    inversion Hb1; subst b1.
    split; [reflexivity |]. split; [| reflexivity].
    apply Hpos. vm_compute. discriminate.
Defined.

(** X7: pending data is replaced, not queued.  After [set_data(A)] and then
    [set_data(B)] with as many bytes, both without offset and with no
    [_enable] in between, only B is pending, at offset 0; the next
    [_enable] makes no buffer object and uploads nothing in full: it
    binds the handle the object has (0 if none was made), writes B at
    offset 0 and binds again.  A reaches the device never. *)
Theorem Buffer_set_data_twice_then_enable (l : loc) (b : Buffer)
    (A B : ndarray) (w : world) :
  heap w !! l = Some b ->
  arr_nbytes A = arr_nbytes B ->
  let h := if _handle b <? 0 then 0 else _handle b in
  exists w1 w2 w3,
    Buffer.set_data l (PyArray A) None w = (Ok tt, w1) /\
    Buffer.set_data l (PyArray B) None w1 = (Ok tt, w2) /\
    Buffer._enable l w2 = (Ok tt, w3) /\
    gl_log w3 = gl_log w ++
                [glBindBuffer (_target b) h;
                 glBufferSubData (_target b) 0 (arr_nbytes B) B;
                 glBindBuffer (_target b) h].
Proof.
  intros Hl Hn h.
  assert (Hh : 0 <= handle_after_reset b).
  { unfold handle_after_reset. destruct (_handle b <? 0) eqn:E; lia. }
  assert (H1 : heap (set_obj l (after_set_data b A) w) !! l
               = Some (after_set_data b A)) by lk.
  assert (Hb : after_set_data (after_set_data b A) B
               = {| _target := _target b; _handle := handle_after_reset b;
                    _buffer_size := arr_nbytes B;
                    _pending_data := Assigned (Some (B, Some 0)) |}).
  { unfold after_set_data at 1. unfold staged_offset, handle_after_reset at 1,
      size_after_reset. simpl.
    replace (handle_after_reset b <? 0) with false by lia.
    now rewrite Hn, Z.eqb_refl. }
  eexists _, _, _. split; [exact (set_data_no_offset _ _ _ _ Hl) |].
  split; [exact (set_data_no_offset _ _ _ _ H1) |]. rewrite Hb.
  split; [eapply enable_fast; [lk | exact Hh | reflexivity] |].
  reflexivity.
Qed.

Lemma Buffer_set_data_twice_then_enable_witness :
  exists w1 w2 w3,
    Buffer.set_data 0 (PyArray three_floats) None
      (world_of [new_Buffer GL_ARRAY_BUFFER]) = (Ok tt, w1) /\
    Buffer.set_data 0 (PyArray three_floats) None w1 = (Ok tt, w2) /\
    Buffer._enable 0 w2 = (Ok tt, w3) /\
    gl_log w3 = [glBindBuffer GL_ARRAY_BUFFER 0;
                 glBufferSubData GL_ARRAY_BUFFER 0 12 three_floats;
                 glBindBuffer GL_ARRAY_BUFFER 0].
Proof.
  exact (Buffer_set_data_twice_then_enable 0 (new_Buffer GL_ARRAY_BUFFER)
           three_floats three_floats (world_of [new_Buffer GL_ARRAY_BUFFER])
           eq_refl eq_refl).
Defined.

(** X8: [_enable] works on its own object only.  Whether it returns or
    raises, every other object of the store is as it was, no object has a
    new place, and the target and the size of its own object are
    unchanged. *)
Theorem Buffer_enable_touches_only_its_object (l : loc) (b : Buffer) (w : world) :
  heap w !! l = Some b ->
  exists r w' b',
    Buffer._enable l w = (r, w') /\
    length (heap w') = length (heap w) /\
    heap w' !! l = Some b' /\
    _target b' = _target b /\
    _buffer_size b' = _buffer_size b /\
    forall l', l' <> l -> heap w' !! l' = heap w !! l'.
Proof.
  intros Hl. destruct (Z.lt_ge_cases (_handle b) 0) as [Hneg | Hpos].
  - exists (Ok tt), w, b. split; [now apply (enable_failed l b) |].
    repeat split; assumption.
  - destruct (_pending_data b) as [|[[data [offset|]]|]] eqn:Hp.
    + exists (Raise AttributeError), w, b.
      split; [now apply (enable_unset l b) |]. repeat split; assumption.
    + eexists _, _, _. split; [exact (enable_fast _ _ _ _ _ Hl Hpos Hp) |].
      split; [apply length_insert |]. split; [lk |].
      repeat split. intros l' Hne. simpl. now apply list_lookup_insert_ne.
    + eexists _, _, _. split; [exact (enable_full _ _ _ _ Hl Hpos Hp) |].
      split; [apply length_insert |]. split; [lk |].
      repeat split. intros l' Hne. simpl. now apply list_lookup_insert_ne.
    + eexists _, _, b. split; [exact (enable_idle _ _ _ Hl Hpos Hp) |].
      repeat split; assumption.
Qed.

Lemma Buffer_enable_touches_only_its_object_witness :
  exists r w',
    Buffer._enable 1 (world_of [failed_buffer;
                                after_set_data live_buffer one_float]) = (r, w') /\
    heap w' !! 0%nat = Some failed_buffer.
Proof.
  destruct (Buffer_enable_touches_only_its_object 1
              (after_set_data live_buffer one_float)
              (world_of [failed_buffer; after_set_data live_buffer one_float])
              eq_refl)
    as (r & w' & b' & H & _ & _ & _ & _ & Hother).
  exists r, w'. split; [exact H |].
  etrans; [apply Hother; discriminate | reflexivity].
Defined.

(** X9: the first [_enable] of a Buffer made with data.  [Buffer(target,
    data)] with one of the two targets makes no device call; the first
    [_enable] deletes nothing, takes a handle from the driver, binds it,
    uploads all of the data with GL_DYNAMIC_DRAW and binds again. *)
Theorem Buffer_init_with_data_then_enable (target : GLenum) (data : ndarray)
    (w : world) :
  target = GL_ARRAY_BUFFER \/ target = GL_ELEMENT_ARRAY_BUFFER ->
  0 <= arr_nbytes data ->
  let l := length (heap w) in
  let h := driver w (gl_log w) in
  exists w1 w2,
    Buffer.__init__ target (PyArray data) w = (Ok l, w1) /\
    gl_log w1 = gl_log w /\
    Buffer._enable l w1 = (Ok tt, w2) /\
    gl_log w2 = gl_log w ++
                [glGenBuffers 1; glBindBuffer target h;
                 glBufferData target (arr_nbytes data) data GL_DYNAMIC_DRAW;
                 glBindBuffer target h] /\
    heap w2 !! l = Some {| _target := target; _handle := h;
                           _buffer_size := arr_nbytes data;
                           _pending_data := Assigned None |}.
Proof.
  intros Ht Hn l h.
  set (w0 := with_heap (heap w ++ [new_Buffer target]) w).
  assert (H0 : heap w0 !! l = Some (new_Buffer target)).
  { simpl. now apply list_lookup_middle. }
  assert (Hinit : Buffer.__init__ target (PyArray data) w
                  = (Ok l, set_obj l (after_set_data (new_Buffer target) data) w0)).
  { unfold Buffer.__init__.
    rewrite bool_decide_eq_true_2
      by (destruct Ht as [-> | ->]; repeat constructor).
    erewrite mbind_ok by reflexivity. fold l. fold (new_Buffer target). fold w0.
    erewrite mbind_ok by (exact (set_data_no_offset _ _ _ _ H0)).
    reflexivity. }
  assert (Hp : _pending_data (after_set_data (new_Buffer target) data)
               = Assigned (Some (data, None))).
  { simpl. unfold staged_offset, size_after_reset. simpl.
    now replace (arr_nbytes data =? -1) with false by lia. }
  eexists _, _. split; [exact Hinit |]. split; [reflexivity |].
  split; [eapply enable_full; [lk | vm_compute; discriminate | exact Hp] |].
  split.
  - simpl. unfold deleted_calls, handle_after_reset. simpl.
    now rewrite app_nil_r.
  - unfold deleted_calls, handle_after_reset. simpl. rewrite app_nil_r.
    apply list_lookup_insert_eq. rewrite length_insert, length_app. simpl.
    unfold l. lia.
Qed.

Lemma Buffer_init_with_data_then_enable_witness :
  exists w1 w2,
    Buffer.__init__ GL_ELEMENT_ARRAY_BUFFER (PyArray three_floats) (world_of [])
    = (Ok 0%nat, w1) /\
    Buffer._enable 0 w1 = (Ok tt, w2) /\
    gl_log w2 = [glGenBuffers 1; glBindBuffer GL_ELEMENT_ARRAY_BUFFER 1;
                 glBufferData GL_ELEMENT_ARRAY_BUFFER 12 three_floats
                   GL_DYNAMIC_DRAW;
                 glBindBuffer GL_ELEMENT_ARRAY_BUFFER 1].
Proof.
  destruct (Buffer_init_with_data_then_enable GL_ELEMENT_ARRAY_BUFFER
              three_floats (world_of []) (or_intror eq_refl))
    as (w1 & w2 & Hinit & _ & Hen & Hlog & _).
  - vm_compute. discriminate.
  - exists w1, w2. split; [exact Hinit |]. split; [exact Hen | exact Hlog].
Defined.

(** ** More on VertexBuffer.__getitem__ *)

Lemma getitem_result v index w r w' :
  VertexBuffer.__getitem__ v index w = (r, w') ->
  w' = w /\
  forall v', r = Ok v' -> _isview v' = true /\ _buffer v' = _buffer v.
Proof.
  unfold VertexBuffer.__getitem__. intros H.
  apply mbind_inv in H as [(p & w1 & Hp & H) | (e & Hp & ->)].
  - assert (w1 = w) as ->.
    { unfold mbind, M_bind, bind, assert, shape_item, mret, M_ret, ret, raise
        in Hp.
      repeat case_match; simplify_eq; reflexivity. }
    destruct p as [[[[o s] t] s0] s1].
    apply mbind_inv in H as [(nb & w2 & Hn & H) | (e & Hn & ->)];
      inversion Hn; subst; inversion H; subst.
    split; [reflexivity |]. intros v' [= <-]. split; reflexivity.
  - split; [| discriminate].
    unfold mbind, M_bind, bind, assert, shape_item, mret, M_ret, ret, raise
      in Hp.
    repeat case_match; simplify_eq; reflexivity.
Qed.

(** X10: indexing makes nothing and changes nothing.  Whatever the index
    and whether it returns or raises, [__getitem__] leaves the store and
    the device log as they were; what it returns is a view on the Buffer
    object of the source; an index that is neither a string nor a slice
    raises ValueError. *)
Theorem VertexBuffer_getitem_leaves_the_world (v : VertexBuffer)
    (index : pyobj) (w : world) :
  exists r,
    VertexBuffer.__getitem__ v index w = (r, w) /\
    (forall v', r = Ok v' -> _isview v' = true /\ _buffer v' = _buffer v) /\
    ((forall s, index <> PyStr s) ->
     (forall start stop step, index <> PySlice start stop step) ->
     r = Raise ValueError).
Proof.
  destruct (VertexBuffer.__getitem__ v index w) as [r w'] eqn:H.
  destruct (getitem_result _ _ _ _ _ H) as [-> Hview].
  exists r. split; [reflexivity |]. split; [exact Hview |].
  intros Hs Hsl. destruct index; try (now inversion H).
  - now destruct (Hs s).
  - now destruct (Hsl start stop step).
Qed.

Lemma VertexBuffer_getitem_leaves_the_world_witness :
  VertexBuffer.__getitem__ ten_triples (PyInt 3) (world_of [live_buffer])
  = (Raise ValueError, world_of [live_buffer]).
Proof.
  destruct (VertexBuffer_getitem_leaves_the_world ten_triples (PyInt 3)
              (world_of [live_buffer])) as (r & H & _ & Hother).
  rewrite H. f_equal. apply Hother; discriminate.
Defined.

Lemma slice_view_ok (v : VertexBuffer) (n k start stop step : Z) (w : world) :
  _shape v = Some (n, k) ->
  0 <= start -> 1 <= step -> 0 < stop ->
  VertexBuffer.__getitem__ v (PySlice (Some start) (Some stop) (Some step)) w
  = (Ok (view_of v (start * _stride v + _offset v) (step * _stride v)
           ((stop - start) `div` step, k) (_type v)), w).
Proof.
  intros Hs Hstart Hstep Hstop.
  rewrite (getitem_slice v n k _ _ _ w Hs).
  assert (or_default (Some start) 0 = start) as ->.
  { unfold or_default. destruct (start =? 0) eqn:E; [lia | reflexivity]. }
  rewrite !or_default_nonzero by lia.
  replace (0 <=? start) with true by lia.
  replace (1 <=? step) with true by lia.
  replace (0 <? stop) with true by lia.
  reflexivity.
Qed.

Lemma field_view_ok (v : VertexBuffer) (fields : gmap string fieldinfo)
    (name kind : string) (count offset n k : Z) (w : world) :
  _type v = TFields fields ->
  fields !! name = Some (kind, count, offset) ->
  _shape v = Some (n, k) ->
  VertexBuffer.__getitem__ v (PyStr name) w
  = (Ok (view_of v (offset + _offset v) (_stride v) (n, count) (TName kind)), w).
Proof.
  intros Ht Hf Hs. unfold VertexBuffer.__getitem__.
  rewrite Ht, Hf, Hs. reflexivity.
Qed.

(** X11: a slice of a slice.  On a VertexBuffer with a shape, slicing
    [a:b:s] and then [c:d:t] (starts not negative, steps at least 1, stops
    positive) gives the view on the same Buffer with
    offset (c*s + a) * stride + offset, stride t*s*stride and
    (d - c) // t elements: the second slice counts in elements of the
    first, and is not cut to the number of elements the first has. *)
Theorem VertexBuffer_slice_of_slice (v : VertexBuffer)
    (n k a b s c d t : Z) (w : world) :
  _shape v = Some (n, k) ->
  0 <= a -> 1 <= s -> 0 < b ->
  0 <= c -> 1 <= t -> 0 < d ->
  exists v1,
    VertexBuffer.__getitem__ v (PySlice (Some a) (Some b) (Some s)) w
    = (Ok v1, w) /\
    VertexBuffer.__getitem__ v1 (PySlice (Some c) (Some d) (Some t)) w
    = (Ok {| _isview := true;
             _buffer := _buffer v;
             _offset := (c * s + a) * _stride v + _offset v;
             _stride := t * s * _stride v;
             _shape := Some ((d - c) `div` t, k);
             _type := _type v |}, w).
Proof.
  intros Hs Ha Hst Hb Hc Ht Hd. eexists. split.
  - exact (slice_view_ok v n k a b s w Hs Ha Hst Hb).
  - rewrite (slice_view_ok (view_of v _ _ (_, k) _) _ k c d t w eq_refl Hc Ht Hd).
    unfold view_of. simpl. do 2 f_equal. f_equal; lia.
Qed.

Lemma VertexBuffer_slice_of_slice_witness :
  exists v1,
    VertexBuffer.__getitem__ ten_triples (PySlice (Some 2) (Some 8) (Some 2))
      (world_of [live_buffer]) = (Ok v1, world_of [live_buffer]) /\
    VertexBuffer.__getitem__ v1 (PySlice (Some 1) (Some 50) (Some 1))
      (world_of [live_buffer])
    = (Ok {| _isview := true; _buffer := 0;
             _offset := (1 * 2 + 2) * 12 + 0; _stride := 1 * 2 * 12;
             _shape := Some (49, 3); _type := TName "float32" |},
       world_of [live_buffer]).
Proof.
  apply (VertexBuffer_slice_of_slice ten_triples 10 3 2 8 2 1 50 1
           (world_of [live_buffer]) eq_refl); lia.
Defined.

(** X12: a field of a slice is the slice of the field.  On a VertexBuffer
    whose type is a dictionary of fields, taking the field [name] and then
    the slice [a:b:s], or the slice and then the field, gives the same
    view: offset a * stride + field offset + offset, stride s * stride,
    the field's kind and component count, (b - a) // s elements. *)
Theorem VertexBuffer_field_and_slice_commute (v : VertexBuffer)
    (fields : gmap string fieldinfo) (name kind : string)
    (count offset n k a b s : Z) (w : world) :
  _type v = TFields fields ->
  fields !! name = Some (kind, count, offset) ->
  _shape v = Some (n, k) ->
  0 <= a -> 1 <= s -> 0 < b ->
  let slice := PySlice (Some a) (Some b) (Some s) in
  let view := {| _isview := true;
                 _buffer := _buffer v;
                 _offset := a * _stride v + offset + _offset v;
                 _stride := s * _stride v;
                 _shape := Some ((b - a) `div` s, count);
                 _type := TName kind |} in
  exists vf vs,
    VertexBuffer.__getitem__ v (PyStr name) w = (Ok vf, w) /\
    VertexBuffer.__getitem__ vf slice w = (Ok view, w) /\
    VertexBuffer.__getitem__ v slice w = (Ok vs, w) /\
    VertexBuffer.__getitem__ vs (PyStr name) w = (Ok view, w).
Proof.
  intros Ht Hf Hs Ha Hst Hb slice view. eexists _, _.
  split; [exact (field_view_ok v fields name kind count offset n k w Ht Hf Hs) |].
  split.
  - unfold slice.
    rewrite (slice_view_ok (view_of v _ _ (n, count) _) n count a b s w
               eq_refl Ha Hst Hb).
    unfold view, view_of. simpl. do 2 f_equal. f_equal; lia.
  - split; [exact (slice_view_ok v n k a b s w Hs Ha Hst Hb) |].
    rewrite (field_view_ok (view_of v _ _ (_, k) (_type v)) fields name kind
               count offset _ k w Ht Hf eq_refl).
    unfold view, view_of. simpl. do 2 f_equal. f_equal; lia.
Qed.

Lemma VertexBuffer_field_and_slice_commute_witness :
  exists vf vs view,
    VertexBuffer.__getitem__ record_buffer (PyStr "col") (world_of [live_buffer])
    = (Ok vf, world_of [live_buffer]) /\
    VertexBuffer.__getitem__ vf (PySlice (Some 1) (Some 7) (Some 2))
      (world_of [live_buffer]) = (Ok view, world_of [live_buffer]) /\
    VertexBuffer.__getitem__ record_buffer (PySlice (Some 1) (Some 7) (Some 2))
      (world_of [live_buffer]) = (Ok vs, world_of [live_buffer]) /\
    VertexBuffer.__getitem__ vs (PyStr "col") (world_of [live_buffer])
    = (Ok view, world_of [live_buffer]).
Proof.
  destruct (VertexBuffer_field_and_slice_commute record_buffer
              (<["pos" := ("float32", 3, 0)]>
               (<["col" := ("uint8", 4, 12)]>
                (<["w" := ("float32", 1, 16)]> ∅)))
              "col" "uint8" 4 12 10 1 1 7 2 (world_of [live_buffer])
              eq_refl eq_refl eq_refl)
    as (vf & vs & H1 & H2 & H3 & H4); try lia.
  eexists vf, vs, _. split; [exact H1 |]. split; [exact H2 |].
  split; [exact H3 | exact H4].
Defined.

(** X13: a view and its source are one Buffer to the device.  For a view
    returned by [__getitem__], [_enable] and [_disable] do what they do on
    the source, in every world, and [set_data] raises RuntimeError. *)
Theorem VertexBuffer_view_shares_device_state (v v' : VertexBuffer)
    (index : pyobj) (w w' : world) :
  VertexBuffer.__getitem__ v index w = (Ok v', w') ->
  (forall w2, VertexBuffer._enable v' w2 = VertexBuffer._enable v w2) /\
  (forall w2, VertexBuffer._disable v' w2 = VertexBuffer._disable v w2) /\
  (forall data offset w2,
     VertexBuffer.set_data data offset (v', w2) = (Raise RuntimeError, (v', w2))).
Proof.
  intros H. destruct (getitem_result _ _ _ _ _ H) as [_ Hview].
  destruct (Hview v' eq_refl) as [Hv Hb].
  unfold VertexBuffer._enable, VertexBuffer._disable. rewrite Hb.
  repeat split. intros data offset w2. unfold VertexBuffer.set_data.
  erewrite mbind_ok by reflexivity. simpl. now rewrite Hv.
Qed.

Lemma VertexBuffer_view_shares_device_state_witness :
  exists v',
    VertexBuffer.__getitem__ ten_triples (PySlice (Some 2) None None)
      (world_of [live_buffer]) = (Ok v', world_of [live_buffer]) /\
    VertexBuffer._enable v' (world_of [live_buffer])
    = VertexBuffer._enable ten_triples (world_of [live_buffer]).
Proof.
  eexists. split; [reflexivity |].
  eapply (proj1 (VertexBuffer_view_shares_device_state ten_triples _
                   (PySlice (Some 2) None None) (world_of [live_buffer])
                   (world_of [live_buffer]) eq_refl)).
Defined.

(** ** unravel_dtype_fields *)

Lemma unravel_loop_step name t offset names fields c :
  field_count t = Some c ->
  unravel_loop ((name, (t, offset)) :: names) fields
  = unravel_loop names (<[name := (scalar_name (fd_base t), c, offset)]> fields).
Proof.
  unfold field_count. intros H. simpl.
  destruct (fd_subshape t) as [[|c' [|]]|]; simplify_eq; reflexivity.
Qed.

Lemma unravel_loop_bad name t offset names fields :
  field_count t = None ->
  unravel_loop ((name, (t, offset)) :: names) fields = Raise AssertionError.
Proof.
  unfold field_count. intros H. simpl.
  destruct (fd_subshape t) as [[|c' [|]]|]; simplify_eq; reflexivity.
Qed.

Lemma unravel_loop_lookup names : forall fields,
  Forall (fun e : field_entry => is_Some (field_count e.2.1)) names ->
  NoDup names.*1 ->
  exists fields',
    unravel_loop names fields = Ok fields' /\
    (forall name t offset,
       (name, (t, offset)) ∈ names ->
       exists c, field_count t = Some c /\
                 fields' !! name = Some (scalar_name (fd_base t), c, offset)) /\
    (forall name, name ∉ names.*1 -> fields' !! name = fields !! name).
Proof.
  induction names as [|[name [t offset]] names IH]; intros fields Hgood Hnd.
  - exists fields. split; [reflexivity |]. split; [| reflexivity].
    intros name t offset H. now apply elem_of_nil in H.
  - apply Forall_cons in Hgood as [[c Hc] Hgood]. simpl in Hc.
    apply NoDup_cons in Hnd as [Hfresh Hnd].
    rewrite (unravel_loop_step _ _ _ _ _ _ Hc).
    destruct (IH (<[name := (scalar_name (fd_base t), c, offset)]> fields)
                Hgood Hnd) as (fields' & Hrun & Hin & Hout).
    exists fields'. split; [exact Hrun |]. split.
    + intros name' t' offset' H. apply elem_of_cons in H as [H | H].
      * injection H as -> -> ->. exists c. split; [exact Hc |].
        etrans; [apply Hout; exact Hfresh | apply lookup_insert_eq].
      * now apply Hin.
    + intros name' H. simpl in H. apply not_elem_of_cons in H as [Hne H].
      etrans; [apply Hout; exact H | now apply lookup_insert_ne].
Qed.

Lemma unravel_loop_fails names : forall fields,
  Exists (fun e : field_entry => field_count e.2.1 = None) names ->
  unravel_loop names fields = Raise AssertionError.
Proof.
  induction names as [|[name [t offset]] names IH]; intros fields H.
  - now apply Exists_nil in H.
  - destruct (field_count t) as [c|] eqn:Hc.
    + rewrite (unravel_loop_step _ _ _ _ _ _ Hc). apply IH.
      apply Exists_cons in H as [H | H]; [simpl in H; congruence | exact H].
    + now apply unravel_loop_bad.
Qed.

Lemma unravel_loop_keeps (P : fieldinfo -> Prop) names : forall fields fields',
  unravel_loop names fields = Ok fields' ->
  map_Forall (fun _ => P) fields ->
  Forall (fun e : field_entry =>
            forall c, field_count e.2.1 = Some c ->
                      P (scalar_name (fd_base e.2.1), c, e.2.2)) names ->
  map_Forall (fun _ => P) fields'.
Proof.
  induction names as [|[name [t offset]] names IH]; intros fields fields' H Hf Hn.
  - now inversion H; subst.
  - apply Forall_cons in Hn as [Hhead Hn].
    destruct (field_count t) as [c|] eqn:Hc.
    + rewrite (unravel_loop_step _ _ _ _ _ _ Hc) in H.
      apply (IH _ _ H); [| exact Hn].
      apply map_Forall_insert_2; [| exact Hf]. apply (Hhead c). exact Hc.
    + now rewrite (unravel_loop_bad _ _ _ _ _ Hc) in H.
Qed.

(** X14: the dictionary of a record dtype.  When the field names are
    distinct and every field is a scalar or a sub-array of one dimension,
    [unravel_dtype_fields] returns a dictionary whose keys are the field
    names, each with (name of the scalar kind, component count, byte
    offset) of its field, the count being 1 for a scalar. *)
Theorem unravel_dtype_fields_lookup (first : field_entry)
    (rest : list field_entry) (itemsize : Z) :
  Forall (fun e : field_entry => is_Some (field_count e.2.1)) (first :: rest) ->
  NoDup (first :: rest).*1 ->
  exists fields,
    unravel_dtype_fields (Structured first rest itemsize) = Ok fields /\
    (forall name t offset,
       (name, (t, offset)) ∈ first :: rest ->
       exists c, field_count t = Some c /\
                 fields !! name = Some (scalar_name (fd_base t), c, offset)) /\
    (forall name, name ∉ (first :: rest).*1 -> fields !! name = None).
Proof.
  intros Hgood Hnd. unfold unravel_dtype_fields. simpl dtype_fields.
  destruct (unravel_loop_lookup (first :: rest) ∅ Hgood Hnd)
    as (fields & Hrun & Hin & Hout).
  exists fields. split; [exact Hrun |]. split; [exact Hin |].
  intros name H. now rewrite (Hout name H).
Qed.

Lemma unravel_dtype_fields_lookup_witness :
  exists fields,
    unravel_dtype_fields (arr_dtype ten_records) = Ok fields /\
    fields !! "col" = Some ("uint8", 4, 12) /\
    fields !! "normal" = None.
Proof.
  destruct (unravel_dtype_fields_lookup
              ("pos", ({| fd_base := float32; fd_subshape := Some [3] |}, 0))
              [("col", ({| fd_base := uint8; fd_subshape := Some [4] |}, 12));
               ("w", ({| fd_base := float32; fd_subshape := None |}, 16))] 20)
    as (fields & Hrun & Hin & Hout).
  - repeat constructor; eexists; reflexivity.
  - apply (bool_decide_unpack _). vm_compute. exact I.
  - exists fields. split; [exact Hrun |]. split.
    + destruct (Hin "col" {| fd_base := uint8; fd_subshape := Some [4] |} 12)
        as (c & Hc & Hl); [repeat constructor |].
      vm_compute in Hc. now inversion Hc; subst.
    + apply Hout. apply (bool_decide_unpack _). vm_compute. exact I.
Defined.

(** X15: [unravel_dtype_fields] raises AssertionError as soon as one field
    is a sub-array of no or of several dimensions; on a dtype without
    fields it raises TypeError. *)
Theorem unravel_dtype_fields_fails (d : dtype) :
  match d with
  | Plain _ => unravel_dtype_fields d = Raise TypeError
  | Structured first rest _ =>
      Exists (fun e : field_entry => field_count e.2.1 = None) (first :: rest) ->
      unravel_dtype_fields d = Raise AssertionError
  end.
Proof.
  destruct d as [k | first rest n]; [reflexivity |].
  intros H. unfold unravel_dtype_fields. simpl dtype_fields.
  now apply unravel_loop_fails.
Qed.

Lemma unravel_dtype_fields_fails_witness :
  unravel_dtype_fields
    (Structured ("m", ({| fd_base := float32; fd_subshape := Some [4; 4] |}, 0))
       [] 64)
  = Raise AssertionError.
Proof.
  apply (unravel_dtype_fields_fails
           (Structured ("m", ({| fd_base := float32;
                                 fd_subshape := Some [4; 4] |}, 0)) [] 64)).
  apply Exists_cons_hd. reflexivity.
Defined.

(** ** More on VertexBuffer.set_data *)

Lemma unravel_loop_total names : forall fields,
  (exists fields', unravel_loop names fields = Ok fields' /\
     Forall (fun e : field_entry => is_Some (field_count e.2.1)) names) \/
  unravel_loop names fields = Raise AssertionError.
Proof.
  induction names as [|[name [t offset]] names IH]; intros fields.
  - left. exists fields. split; [reflexivity | constructor].
  - destruct (field_count t) as [c|] eqn:Hc.
    + rewrite (unravel_loop_step _ _ _ _ _ _ Hc).
      destruct (IH (<[name := (scalar_name (fd_base t), c, offset)]> fields))
        as [(fields' & H & Hall) | H]; [left | right; exact H].
      exists fields'. split; [exact H |]. constructor; [| exact Hall].
      simpl. rewrite Hc. eexists; reflexivity.
    + right. now apply unravel_loop_bad.
Qed.

Lemma field_ok_info_ok (e : field_entry) (c : Z) :
  field_ok e = true -> field_count e.2.1 = Some c ->
  info_ok (scalar_name (fd_base e.2.1), c, e.2.2).
Proof.
  unfold field_ok, info_ok. intros H Hc. rewrite Hc in H.
  apply andb_true_iff in H as [H1 H2]. split; [exact H1 |].
  now apply bool_decide_eq_true_1 in H2.
Qed.

Lemma field_ok_count (e : field_entry) :
  field_ok e = true -> is_Some (field_count e.2.1).
Proof.
  unfold field_ok. intros H. apply andb_true_iff in H as [_ H].
  destruct (field_count e.2.1); [eexists; reflexivity | discriminate].
Qed.

Lemma unravel_loop_ok names : forall fields,
  Forall (fun e : field_entry => is_Some (field_count e.2.1)) names ->
  exists fields', unravel_loop names fields = Ok fields'.
Proof.
  induction names as [|[name [t offset]] names IH]; intros fields H.
  - exists fields. reflexivity.
  - apply Forall_cons in H as [[c Hc] H]. simpl in Hc.
    rewrite (unravel_loop_step _ _ _ _ _ _ Hc). now apply IH.
Qed.

(** The dictionary of a dtype whose fields are all supported passes the
    checks of [set_data]. *)
Lemma unravel_supported first rest itemsize :
  Forall (fun e => field_ok e = true) (first :: rest) ->
  exists fields,
    unravel_dtype_fields (Structured first rest itemsize) = Ok fields /\
    map_Forall (fun _ : string => info_ok) fields.
Proof.
  intros H. unfold unravel_dtype_fields. simpl dtype_fields.
  destruct (unravel_loop_ok (first :: rest) ∅) as [fields Hrun].
  { eapply Forall_impl; [exact H |]. intros e He. now apply field_ok_count. }
  exists fields. split; [exact Hrun |].
  apply (unravel_loop_keeps info_ok _ _ _ Hrun); [apply map_Forall_empty |].
  eapply Forall_impl; [exact H |]. intros e He c Hc.
  now apply field_ok_info_ok.
Qed.

(** The dictionary of a dtype with distinct field names, one of them
    unsupported, fails the checks of [set_data], when there is one. *)
Lemma unravel_unsupported first rest itemsize :
  NoDup (first :: rest).*1 ->
  Exists (fun e => field_ok e = false) (first :: rest) ->
  unravel_dtype_fields (Structured first rest itemsize) = Raise AssertionError \/
  exists fields,
    unravel_dtype_fields (Structured first rest itemsize) = Ok fields /\
    ~ map_Forall (fun _ : string => info_ok) fields.
Proof.
  intros Hnd Hbad. unfold unravel_dtype_fields. simpl dtype_fields.
  destruct (unravel_loop_total (first :: rest) ∅) as [(fields & Hrun & Hall) | H];
    [right | left; exact H].
  exists fields. split; [exact Hrun |]. intros Hok.
  destruct (unravel_loop_lookup _ ∅ Hall Hnd) as (fields' & Hrun' & Hin & _).
  rewrite Hrun in Hrun'. injection Hrun' as <-.
  apply Exists_exists in Hbad as ([name [t offset]] & Hel & Hno).
  destruct (Hin name t offset Hel) as (c & Hc & Hl).
  apply Hok in Hl. destruct Hl as [H1 H2]. simpl in H1, H2.
  unfold field_ok in Hno. simpl in Hno. rewrite Hc, H1 in Hno. simpl in Hno.
  now apply bool_decide_eq_false_1 in Hno.
Qed.

#[local] Opaque Buffer.set_data.

(** On a VertexBuffer that is not a view, [set_data] with a record array
    of supported fields assigns type, shape and stride, and then hands
    array and offset to the Buffer. *)
Lemma set_data_records (v : VertexBuffer) (w : world)
    (first : field_entry) (rest : list field_entry) (itemsize : Z)
    (shape : list Z) (base : nat) (offset : option Z) fields :
  _isview v = false ->
  _offset v = 0 ->
  unravel_dtype_fields (Structured first rest itemsize) = Ok fields ->
  map_Forall (fun _ : string => info_ok) fields ->
  let a := {| arr_dtype := Structured first rest itemsize; arr_shape := shape;
              arr_base := base |} in
  VertexBuffer.set_data (PyArray a) offset (v, w)
  = let '(r, w') := Buffer.set_data (_buffer v) (PyArray a) offset w in
    (r, ({| _isview := false; _buffer := _buffer v; _offset := 0;
            _stride := itemsize * 1; _shape := Some (arr_size a, 1);
            _type := TFields fields |}, w')).
Proof.
  intros Hview Hoff Hrun Hok a. subst a.
  unfold VertexBuffer.set_data.
  unfold mbind, M_bind, bind, self_get, self_set, on_world, shape_item,
    assert, tuple_item, from_result, mret, M_ret, ret, raise.
  cbn [fst snd arr_dtype]. rewrite Hview, Hrun.
  rewrite bool_decide_eq_true_2 by exact Hok.
  cbn. rewrite Hoff. cbn.
  destruct (Buffer.set_data _ _ _ _) as [r w'].
  unfold with_stride, with_shape, with_type; simpl; rewrite Hview, Hoff; reflexivity.
Qed.

(** The same for a plain array of a shape [set_data] takes; the array
    handed on is the converted one. *)
Lemma set_data_plain_offset (v : VertexBuffer) (w : world) (k : scalar)
    (shape : list Z) (base : nat) (n m : Z) (offset : option Z) :
  _isview v = false ->
  _offset v = 0 ->
  (shape = [n] /\ m = 1) \/ (shape = [n; m] /\ 1 <= m <= 4) ->
  let a := {| arr_dtype := Plain k; arr_shape := shape; arr_base := base |} in
  VertexBuffer.set_data (PyArray a) offset (v, w)
  = let '(r, w') := Buffer.set_data (_buffer v) (PyArray (converted a)) offset w in
    (r, ({| _isview := false; _buffer := _buffer v; _offset := 0;
            _stride := dtype_itemsize (arr_dtype (converted a)) * m;
            _shape := Some (n, m);
            _type := TName (dtype_name (arr_dtype (converted a))) |}, w')).
Proof.
  intros Hview Hoff Hshape a. subst a.
  unfold VertexBuffer.set_data, converted.
  unfold mbind, M_bind, bind, self_get, self_set, on_world, shape_item,
    assert, tuple_item, from_result, mret, M_ret, ret, raise.
  cbn [fst snd]. rewrite Hview. unfold arr_ndim.
  destruct Hshape as [[-> ->] | [-> Hm]];
    cbn [arr_dtype arr_shape dtype_name length];
    destruct (in_DTYPES (scalar_name k)) eqn:Hk; cbn [negb].
  - change (bool_decide (Z.of_nat 1 ∈ [1; 2])) with true.
    change (Z.of_nat 1 =? 2) with false.
    cbn. rewrite Hoff. cbn.
    destruct (Buffer.set_data _ _ _ _) as [r w'].
    unfold with_stride, with_shape, with_type; simpl; rewrite Hview, Hoff; reflexivity.
  - change (bool_decide (Z.of_nat 1 ∈ [1; 2])) with true.
    change (Z.of_nat 1 =? 2) with false.
    cbn. rewrite Hoff. cbn.
    destruct (Buffer.set_data _ _ _ _) as [r w'].
    unfold with_stride, with_shape, with_type; simpl; rewrite Hview, Hoff; reflexivity.
  - change (bool_decide (Z.of_nat 2 ∈ [1; 2])) with true.
    change (Z.of_nat 2 =? 2) with true.
    cbn. rewrite (tuple_count_ok m Hm). cbn. rewrite Hoff. cbn.
    destruct (Buffer.set_data _ _ _ _) as [r w'].
    unfold with_stride, with_shape, with_type; simpl; rewrite Hview, Hoff; reflexivity.
  - change (bool_decide (Z.of_nat 2 ∈ [1; 2])) with true.
    change (Z.of_nat 2 =? 2) with true.
    cbn. rewrite (tuple_count_ok m Hm). cbn. rewrite Hoff. cbn.
    destruct (Buffer.set_data _ _ _ _) as [r w'].
    unfold with_stride, with_shape, with_type; simpl; rewrite Hview, Hoff; reflexivity.
Qed.

#[local] Transparent Buffer.set_data.

(** X16: a record array whose fields are all supported is taken as it is.
    On a VertexBuffer that is not a view, [set_data(data)] returns, the
    type becomes the dictionary of the fields, the shape (data.size, 1)
    whatever the dimensions of the array, the stride the item size of the
    dtype, and the Buffer stages the array itself, unconverted. *)
Theorem VertexBuffer_set_data_records (v : VertexBuffer) (w : world)
    (b : Buffer) (first : field_entry) (rest : list field_entry)
    (itemsize : Z) (shape : list Z) (base : nat) :
  _isview v = false ->
  _offset v = 0 ->
  heap w !! _buffer v = Some b ->
  Forall (fun e => field_ok e = true) (first :: rest) ->
  let a := {| arr_dtype := Structured first rest itemsize; arr_shape := shape;
              arr_base := base |} in
  exists fields,
    unravel_dtype_fields (arr_dtype a) = Ok fields /\
    VertexBuffer.set_data (PyArray a) None (v, w)
    = (Ok tt,
       ({| _isview := false; _buffer := _buffer v; _offset := 0;
           _stride := itemsize * 1; _shape := Some (arr_size a, 1);
           _type := TFields fields |},
        set_obj (_buffer v) (after_set_data b a) w)).
Proof.
  intros Hview Hoff Hb Hall a.
  destruct (unravel_supported first rest itemsize Hall) as (fields & Hrun & Hok).
  exists fields. split; [exact Hrun |].
  pose proof (set_data_records v w first rest itemsize shape base None fields
                Hview Hoff Hrun Hok) as H.
  cbv zeta in H. fold a in H. rewrite H.
  now rewrite (set_data_no_offset _ _ _ _ Hb).
Qed.

Lemma VertexBuffer_set_data_records_witness :
  exists fields,
    unravel_dtype_fields (arr_dtype ten_records) = Ok fields /\
    VertexBuffer.set_data (PyArray ten_records) None
      (new_VertexBuffer 0, world_of [new_Buffer GL_ARRAY_BUFFER])
    = (Ok tt,
       ({| _isview := false; _buffer := 0; _offset := 0; _stride := 20 * 1;
           _shape := Some (arr_size ten_records, 1);
           _type := TFields fields |},
        set_obj 0 (after_set_data (new_Buffer GL_ARRAY_BUFFER) ten_records)
          (world_of [new_Buffer GL_ARRAY_BUFFER]))).
Proof.
  apply (VertexBuffer_set_data_records (new_VertexBuffer 0)
           (world_of [new_Buffer GL_ARRAY_BUFFER]) (new_Buffer GL_ARRAY_BUFFER)
           ("pos", ({| fd_base := float32; fd_subshape := Some [3] |}, 0))
           [("col", ({| fd_base := uint8; fd_subshape := Some [4] |}, 12));
            ("w", ({| fd_base := float32; fd_subshape := None |}, 16))] 20
           [10] 2 eq_refl eq_refl eq_refl).
  repeat constructor.
Defined.

(** X17: a record array with an unsupported field is refused as a whole.
    When the field names are distinct and one field has a scalar kind
    that is no key of DTYPES, more than four or fewer than one components,
    or a sub-array of several dimensions, [set_data] on a VertexBuffer
    that is not a view raises AssertionError, and neither the
    VertexBuffer nor any Buffer has changed. *)
Theorem VertexBuffer_set_data_rejects_records (v : VertexBuffer) (w : world)
    (first : field_entry) (rest : list field_entry) (itemsize : Z)
    (shape : list Z) (base : nat) (offset : option Z) :
  _isview v = false ->
  NoDup (first :: rest).*1 ->
  Exists (fun e => field_ok e = false) (first :: rest) ->
  VertexBuffer.set_data
    (PyArray {| arr_dtype := Structured first rest itemsize;
                arr_shape := shape; arr_base := base |}) offset (v, w)
  = (Raise AssertionError, (v, w)).
Proof.
  intros Hview Hnd Hbad. unfold VertexBuffer.set_data.
  unfold mbind, M_bind, bind, self_get, self_set, on_world, shape_item,
    assert, tuple_item, from_result, mret, M_ret, ret, raise.
  cbn [fst snd arr_dtype]. rewrite Hview.
  destruct (unravel_unsupported first rest itemsize Hnd Hbad)
    as [-> | (fields & -> & Hno)]; [reflexivity |].
  now rewrite bool_decide_eq_false_2 by exact Hno.
Qed.

Lemma VertexBuffer_set_data_rejects_records_witness :
  VertexBuffer.set_data
    (PyArray {| arr_dtype :=
                  Structured
                    ("pos", ({| fd_base := float32; fd_subshape := Some [3] |}, 0))
                    [("id", ({| fd_base := int32; fd_subshape := None |}, 12))] 16;
                arr_shape := [10]; arr_base := 5 |}) None
    (ten_triples, world_of [live_buffer])
  = (Raise AssertionError, (ten_triples, world_of [live_buffer])).
Proof.
  apply VertexBuffer_set_data_rejects_records.
  - reflexivity.
  - apply (bool_decide_unpack _). vm_compute. exact I.
  - apply Exists_cons_tl, Exists_cons_hd. reflexivity.
Defined.

(** X18: data that is no array, and plain arrays of a shape that is not
    taken, are refused before anything is assigned.  On a VertexBuffer
    that is not a view, [set_data] raises ValueError for data that is no
    array, and AssertionError for a plain array that has neither one
    dimension nor two with one to four columns; the VertexBuffer and
    every Buffer are as they were. *)
Theorem VertexBuffer_set_data_rejects_shapes (v : VertexBuffer) (w : world)
    (offset : option Z) :
  _isview v = false ->
  (forall data, (forall a, data <> PyArray a) ->
     VertexBuffer.set_data data offset (v, w) = (Raise ValueError, (v, w))) /\
  (forall k shape base,
     plain_shape_ok shape = false ->
     VertexBuffer.set_data
       (PyArray {| arr_dtype := Plain k; arr_shape := shape; arr_base := base |})
       offset (v, w)
     = (Raise AssertionError, (v, w))).
Proof.
  intros Hview. split.
  - intros data H. unfold VertexBuffer.set_data.
    erewrite mbind_ok by reflexivity. simpl. rewrite Hview.
    destruct data; try reflexivity. now destruct (H a).
  - intros k shape base H. unfold VertexBuffer.set_data.
    unfold mbind, M_bind, bind, self_get, self_set, on_world, shape_item,
      assert, tuple_item, from_result, mret, M_ret, ret, raise.
    cbn [fst snd arr_dtype arr_shape]. rewrite Hview. unfold arr_ndim.
    cbn [arr_shape].
    destruct shape as [|n [|m [|x rest]]]; simpl in H; try discriminate.
    + reflexivity.
    + change (bool_decide (Z.of_nat (length [n; m]) ∈ [1; 2])) with true.
      change (Z.of_nat (length [n; m]) =? 2) with true. cbn.
      now rewrite H.
    + rewrite bool_decide_eq_false_2; [reflexivity |].
      simpl length. intros Hin.
      apply elem_of_cons in Hin as [Hin | Hin]; [lia |].
      apply elem_of_cons in Hin as [Hin | Hin]; [lia |].
      now apply elem_of_nil in Hin.
Qed.

Lemma VertexBuffer_set_data_rejects_shapes_witness :
  VertexBuffer.set_data
    (PyArray {| arr_dtype := Plain float32; arr_shape := [10; 5];
                arr_base := 6 |}) None
    (ten_triples, world_of [live_buffer])
  = (Raise AssertionError, (ten_triples, world_of [live_buffer])).
Proof.
  apply (proj2 (VertexBuffer_set_data_rejects_shapes ten_triples
                  (world_of [live_buffer]) None eq_refl)).
  reflexivity.
Defined.

(** X19: a partial update that the Buffer refuses has already changed the
    VertexBuffer.  On a VertexBuffer that is not a view, [set_data(data,
    offset)] with a plain array of a shape that is taken, and
    offset + nbytes of the converted array over the size of the Buffer,
    raises AssertionError after type, shape and stride have been assigned
    from the refused data; the Buffer stages nothing. *)
Theorem VertexBuffer_set_data_refused_offset (v : VertexBuffer) (w : world)
    (b : Buffer) (k : scalar) (shape : list Z) (base : nat) (n m o : Z) :
  _isview v = false ->
  _offset v = 0 ->
  heap w !! _buffer v = Some b ->
  (shape = [n] /\ m = 1) \/ (shape = [n; m] /\ 1 <= m <= 4) ->
  let a := {| arr_dtype := Plain k; arr_shape := shape; arr_base := base |} in
  size_after_reset b < o + arr_nbytes (converted a) ->
  VertexBuffer.set_data (PyArray a) (Some o) (v, w)
  = (Raise AssertionError,
     ({| _isview := false; _buffer := _buffer v; _offset := 0;
         _stride := dtype_itemsize (arr_dtype (converted a)) * m;
         _shape := Some (n, m);
         _type := TName (dtype_name (arr_dtype (converted a))) |},
      set_obj (_buffer v) (after_reset b) w)).
Proof.
  intros Hview Hoff Hb Hshape a Ho.
  pose proof (set_data_plain_offset v w k shape base n m (Some o)
                Hview Hoff Hshape) as H.
  cbv zeta in H. fold a in H. rewrite H.
  rewrite (set_data_with_offset _ _ _ _ _ Hb).
  now replace (o + arr_nbytes (converted a) <=? size_after_reset b)
    with false by lia.
Qed.

Lemma VertexBuffer_set_data_refused_offset_witness :
  VertexBuffer.set_data (PyArray ten_doubles) (Some 0)
    (ten_triples, world_of [live_buffer])
  = (Raise AssertionError,
     ({| _isview := false; _buffer := 0; _offset := 0;
         _stride := 4 * 1; _shape := Some (10, 1);
         _type := TName "float32" |},
      world_of [live_buffer])).
Proof.
  apply (VertexBuffer_set_data_refused_offset ten_triples
           (world_of [live_buffer]) live_buffer float64 [10] 3 10 1 0
           eq_refl eq_refl eq_refl (or_introl (conj eq_refl eq_refl))).
  vm_compute. reflexivity.
Defined.

(** X20: the offset of [VertexBuffer.set_data] counts bytes, and the shape
    follows the part.  On a VertexBuffer that is not a view, whose Buffer
    has not failed, [set_data(data, offset)] with offset + nbytes of the
    converted array within the size of the Buffer returns; the shape
    becomes that of the part given; the next [_enable] binds the handle,
    writes the converted array at that byte offset and binds again,
    making no buffer object. *)
Theorem VertexBuffer_partial_update_then_enable (v : VertexBuffer) (w : world)
    (b : Buffer) (k : scalar) (shape : list Z) (base : nat) (n m o : Z) :
  _isview v = false ->
  _offset v = 0 ->
  heap w !! _buffer v = Some b ->
  (shape = [n] /\ m = 1) \/ (shape = [n; m] /\ 1 <= m <= 4) ->
  0 <= _handle b ->
  let a := {| arr_dtype := Plain k; arr_shape := shape; arr_base := base |} in
  o + arr_nbytes (converted a) <= _buffer_size b ->
  exists v' w1 w2,
    VertexBuffer.set_data (PyArray a) (Some o) (v, w) = (Ok tt, (v', w1)) /\
    _shape v' = Some (n, m) /\
    _buffer v' = _buffer v /\
    gl_log w1 = gl_log w /\
    VertexBuffer._enable v' w1 = (Ok tt, w2) /\
    gl_log w2 = gl_log w ++
                [glBindBuffer (_target b) (_handle b);
                 glBufferSubData (_target b) o (arr_nbytes (converted a))
                   (converted a);
                 glBindBuffer (_target b) (_handle b)].
Proof.
  intros Hview Hoff Hb Hshape Hh a Ho.
  pose proof (set_data_plain_offset v w k shape base n m (Some o)
                Hview Hoff Hshape) as H.
  cbv zeta in H. fold a in H.
  rewrite (set_data_with_offset _ _ _ _ _ Hb) in H.
  unfold size_after_reset, handle_after_reset in H.
  replace (_handle b <? 0) with false in H by lia.
  replace (o + arr_nbytes (converted a) <=? _buffer_size b) with true in H by lia.
  eexists _, _, _. split; [exact H |].
  split; [reflexivity |]. split; [reflexivity |]. split; [reflexivity |].
  unfold VertexBuffer._enable. cbn [_buffer].
  split; [eapply enable_fast; [lk | exact Hh | reflexivity] |].
  reflexivity.
Qed.

Lemma VertexBuffer_partial_update_then_enable_witness :
  exists v' w1 w2,
    VertexBuffer.set_data (PyArray one_float) (Some 8)
      (ten_triples, world_of [live_buffer]) = (Ok tt, (v', w1)) /\
    _shape v' = Some (1, 1) /\
    VertexBuffer._enable v' w1 = (Ok tt, w2) /\
    gl_log w2 = [glBindBuffer GL_ARRAY_BUFFER 1;
                 glBufferSubData GL_ARRAY_BUFFER 8 4 one_float;
                 glBindBuffer GL_ARRAY_BUFFER 1].
Proof.
  destruct (VertexBuffer_partial_update_then_enable ten_triples
              (world_of [live_buffer]) live_buffer float32 [1] 1 1 1 8
              eq_refl eq_refl eq_refl (or_introl (conj eq_refl eq_refl)))
    as (v' & w1 & w2 & Hset & Hs & _ & _ & Hen & Hlog).
  - vm_compute. discriminate.
  - vm_compute. discriminate.
  - exists v', w1, w2. repeat split; assumption.
Defined.

(** ** What every VertexBuffer carries *)

Lemma converted_name_ok (a : ndarray) :
  in_DTYPES (dtype_name (arr_dtype (if negb (in_DTYPES (dtype_name (arr_dtype a)))
                                    then astype_float32 a else a))) = true.
Proof.
  destruct (in_DTYPES (dtype_name (arr_dtype a))) eqn:H; [exact H | reflexivity].
Qed.

#[local] Opaque Buffer.set_data in_DTYPES.

Lemma set_data_type_ok data offset v w r v' w' :
  VertexBuffer.set_data data offset (v, w) = (r, (v', w')) ->
  type_ok (_type v) /\ shape_ok (_shape v) ->
  type_ok (_type v') /\ shape_ok (_shape v').
Proof.
  unfold VertexBuffer.set_data. intros H [Ht Hs].
  unfold mbind, M_bind, bind, self_get, self_set, on_world, shape_item,
    assert, tuple_item, from_result, mret, M_ret, ret, raise in H.
  cbn [fst snd] in H.
  repeat case_match; simplify_eq; cbn [fst snd _type _shape with_type with_shape
                                         with_stride type_ok shape_ok];
    repeat match goal with
           | H : bool_decide _ = true |- _ => apply bool_decide_eq_true_1 in H
           end;
    (split; [| first [ assumption | solve [repeat constructor] ]]);
    first
      [ assumption
      | vm_compute; reflexivity
      | match goal with
        | E : arr_dtype _ = Plain _, N : negb _ = false |- _ =>
            rewrite E; now apply negb_false_iff in N
        end ].
Qed.

#[local] Transparent Buffer.set_data in_DTYPES.

Lemma init_type_ok data buffer w v w' :
  VertexBuffer.__init__ data buffer w = (Ok v, w') ->
  type_ok (_type v) /\ shape_ok (_shape v).
Proof.
  unfold VertexBuffer.__init__. intros H.
  apply mbind_inv in H as [(l & w1 & _ & H) | (e & _ & [=])].
  assert (H0 : type_ok (_type (new_VertexBuffer l)) /\
               shape_ok (_shape (new_VertexBuffer l))) by (split; exact I).
  destruct data; try (now inversion H; subst);
    unfold with_self in H;
    match type of H with
    | context [VertexBuffer.set_data ?d ?o ?s] =>
        destruct (VertexBuffer.set_data d o s) as [[u|e] [v1 w2]] eqn:E;
        inversion H; subst;
        exact (set_data_type_ok _ _ _ _ _ _ _ E H0)
    end.
Qed.

Lemma getitem_type_ok v index w v' w' :
  VertexBuffer.__getitem__ v index w = (Ok v', w') ->
  type_ok (_type v) /\ shape_ok (_shape v) ->
  type_ok (_type v') /\ shape_ok (_shape v').
Proof.
  unfold VertexBuffer.__getitem__. intros H [Ht Hs].
  apply mbind_inv in H as [(p & w1 & Hp & H) | (e & _ & [=])].
  destruct p as [[[[o s] t] s0] s1].
  apply mbind_inv in H as [(nb & w2 & _ & H) | (e & _ & [=])].
  inversion H; subst. cbn [_type _shape with_type with_shape].
  clear H. destruct index as [| |name|start stop step| |]; try discriminate.
  - destruct (_type v) as [| |fields] eqn:Et; try discriminate.
    destruct (fields !! name) as [fi|] eqn:Ef; [| discriminate].
    apply Ht in Ef as [H1 H2].
    destruct (_shape v) as [[n k]|]; [| discriminate].
    cbn in Hp. inversion Hp; subst. split; assumption.
  - unfold mbind, M_bind, bind, assert, shape_item, mret, M_ret, ret, raise in Hp.
    repeat case_match; simplify_eq; split; assumption.
Qed.

(** X21: every VertexBuffer a program can hold, made by [VertexBuffer(...)],
    fed by [set_data] (whether it returned or raised) or got as a view,
    has as type None, a key of DTYPES, or a dictionary whose entries all
    have a kind that is a key of DTYPES and one to four components; and
    the second item of its shape, when it has one, is 1, 2, 3 or 4. *)
Theorem VertexBuffer_type_is_supported (v : VertexBuffer) :
  built v ->
  type_ok (_type v) /\ shape_ok (_shape v).
Proof.
  induction 1.
  - eapply init_type_ok; eassumption.
  - eapply set_data_type_ok; eassumption.
  - eapply getitem_type_ok; eassumption.
Qed.

Lemma VertexBuffer_type_is_supported_witness :
  type_ok (_type record_buffer) /\ shape_ok (_shape record_buffer).
Proof.
  exact (VertexBuffer_type_is_supported record_buffer built_record_buffer).
Defined.

(** ** From VertexBuffer(data) to the device *)

Lemma converted_nbytes (k : scalar) (shape : list Z) (base : nat) (n m : Z) :
  (shape = [n] /\ m = 1) \/ (shape = [n; m] /\ 1 <= m <= 4) ->
  0 <= n ->
  0 <= arr_nbytes (converted {| arr_dtype := Plain k; arr_shape := shape;
                                arr_base := base |}).
Proof.
  intros Hshape Hn. unfold converted, arr_nbytes, arr_size.
  cbn [arr_dtype dtype_name].
  assert (Hk : 0 < scalar_itemsize k) by (destruct k; reflexivity).
  destruct Hshape as [[-> ->] | [-> Hm]];
    destruct (in_DTYPES (scalar_name k)); simpl; nia.
Qed.

(** X22: the first [_enable] of a VertexBuffer made with data.
    [VertexBuffer(data)] on a plain array of a shape that is taken makes
    no device call; the first [_enable] takes a handle from the driver,
    binds it to GL_ARRAY_BUFFER, uploads the converted array in full (the
    float32 copy when the kind of the data is no key of DTYPES) and binds
    again. *)
Theorem VertexBuffer_init_then_enable (w : world) (k : scalar)
    (shape : list Z) (base : nat) (n m : Z) :
  (shape = [n] /\ m = 1) \/ (shape = [n; m] /\ 1 <= m <= 4) ->
  0 <= n ->
  let a := {| arr_dtype := Plain k; arr_shape := shape; arr_base := base |} in
  let h := driver w (gl_log w) in
  exists v w1 w2,
    VertexBuffer.__init__ (PyArray a) PyNone w = (Ok v, w1) /\
    gl_log w1 = gl_log w /\
    VertexBuffer._enable v w1 = (Ok tt, w2) /\
    gl_log w2 = gl_log w ++
                [glGenBuffers 1; glBindBuffer GL_ARRAY_BUFFER h;
                 glBufferData GL_ARRAY_BUFFER (arr_nbytes (converted a))
                   (converted a) GL_DYNAMIC_DRAW;
                 glBindBuffer GL_ARRAY_BUFFER h].
Proof.
  intros Hshape Hn a h.
  pose proof (converted_nbytes k shape base n m Hshape Hn) as Hbytes.
  fold a in Hbytes.
  pose proof (init_plain w k shape base n m Hshape) as Hinit.
  cbv zeta in Hinit. fold a in Hinit.
  change (if in_DTYPES (scalar_name k) then a else astype_float32 a)
    with (converted a) in Hinit.
  assert (Hp : _pending_data (after_set_data (new_Buffer GL_ARRAY_BUFFER)
                                (converted a))
               = Assigned (Some (converted a, None))).
  { simpl. unfold staged_offset, size_after_reset. simpl.
    now replace (arr_nbytes (converted a) =? -1) with false by lia. }
  eexists _, _, _. split; [exact Hinit |]. split; [reflexivity |].
  unfold VertexBuffer._enable. cbn [_buffer].
  split; [eapply enable_full;
          [ apply list_lookup_insert_eq; simpl; rewrite length_app; simpl; lia
          | vm_compute; discriminate | exact Hp] |].
  simpl. unfold deleted_calls, handle_after_reset. simpl.
  now rewrite app_nil_r.
Qed.

Lemma VertexBuffer_init_then_enable_witness :
  exists v w1 w2,
    VertexBuffer.__init__ (PyArray ten_doubles) PyNone (world_of []) = (Ok v, w1) /\
    VertexBuffer._enable v w1 = (Ok tt, w2) /\
    gl_log w2 = [glGenBuffers 1; glBindBuffer GL_ARRAY_BUFFER 1;
                 glBufferData GL_ARRAY_BUFFER 40 (astype_float32 ten_doubles)
                   GL_DYNAMIC_DRAW;
                 glBindBuffer GL_ARRAY_BUFFER 1].
Proof.
  destruct (VertexBuffer_init_then_enable (world_of []) float64 [10] 3 10 1
              (or_introl (conj eq_refl eq_refl)))
    as (v & w1 & w2 & Hinit & _ & Hen & Hlog).
  - lia.
  - exists v, w1, w2. split; [exact Hinit |]. split; [exact Hen | exact Hlog].
Defined.

(** ** class ElementBuffer *)

#[local] Opaque Buffer.set_data.

(** For a plain array of a shape that is taken, [set_data] assigns type
    and shape, then hands the converted array and the offset as given to
    its Buffer. *)
Lemma element_set_data_plain (astype : ndarray -> result ndarray)
    (e : ElementBuffer.t) (w : world) (k : scalar) (shape : list Z)
    (base : nat) (n m : Z) (offset : option Z) :
  (shape = [n] /\ m = 1) \/ (shape = [n; m] /\ 1 <= m <= 4) ->
  let a := {| arr_dtype := Plain k; arr_shape := shape; arr_base := base |} in
  ElementBuffer.set_data astype (PyArray a) offset (e, w)
  = let '(r, w') := Buffer.set_data (ElementBuffer._buffer e)
                      (PyArray (converted a)) offset w in
    (r, ({| ElementBuffer._buffer := ElementBuffer._buffer e;
            ElementBuffer._shape := Some (n, m);
            ElementBuffer._type := Some (dtype_name (arr_dtype (converted a))) |},
         w')).
Proof.
  intros Hshape a. subst a.
  unfold ElementBuffer.set_data, converted.
  unfold mbind, M_bind, bind, ElementBuffer.self_get, ElementBuffer.self_set,
    ElementBuffer.on_world, assert, tuple_item, from_result, mret, M_ret, ret,
    raise.
  cbn [fst snd]. unfold arr_ndim.
  destruct Hshape as [[-> ->] | [-> Hm]];
    cbn [arr_dtype arr_shape dtype_name length];
    destruct (in_DTYPES (scalar_name k)) eqn:Hk; cbn [negb].
  - change (bool_decide (Z.of_nat 1 ∈ [1; 2])) with true.
    change (Z.of_nat 1 =? 2) with false. cbn.
    now destruct (Buffer.set_data _ _ _ _) as [r w'].
  - change (bool_decide (Z.of_nat 1 ∈ [1; 2])) with true.
    change (Z.of_nat 1 =? 2) with false. cbn.
    now destruct (Buffer.set_data _ _ _ _) as [r w'].
  - change (bool_decide (Z.of_nat 2 ∈ [1; 2])) with true.
    change (Z.of_nat 2 =? 2) with true.
    cbn. rewrite (tuple_count_ok m Hm). cbn.
    now destruct (Buffer.set_data _ _ _ _) as [r w'].
  - change (bool_decide (Z.of_nat 2 ∈ [1; 2])) with true.
    change (Z.of_nat 2 =? 2) with true.
    cbn. rewrite (tuple_count_ok m Hm). cbn.
    now destruct (Buffer.set_data _ _ _ _) as [r w'].
Qed.

#[local] Transparent Buffer.set_data.

(** X23: a partial update of an ElementBuffer, in full.  [set_data(data,
    offset)] with a plain array of one dimension, or of two with one to
    four columns, assigns the name of the converted kind as type and
    (rows, columns) as shape, whether the Buffer then takes the update or
    not.  With offset + nbytes of the converted array within the size of
    the Buffer (0 for a failed one), the converted array is staged at
    that byte offset; otherwise AssertionError is raised and nothing is
    staged.  Index data of a kind that is no key of DTYPES, uint32 among
    them, is converted to float32. *)
Theorem ElementBuffer_set_data_at_offset (astype : ndarray -> result ndarray)
    (e : ElementBuffer.t) (w : world) (b : Buffer) (k : scalar)
    (shape : list Z) (base : nat) (n m o : Z) :
  heap w !! ElementBuffer._buffer e = Some b ->
  (shape = [n] /\ m = 1) \/ (shape = [n; m] /\ 1 <= m <= 4) ->
  let a := {| arr_dtype := Plain k; arr_shape := shape; arr_base := base |} in
  let e' := {| ElementBuffer._buffer := ElementBuffer._buffer e;
               ElementBuffer._shape := Some (n, m);
               ElementBuffer._type :=
                 Some (if in_DTYPES (scalar_name k) then scalar_name k
                       else "float32") |} in
  ElementBuffer.set_data astype (PyArray a) (Some o) (e, w)
  = if o + arr_nbytes (converted a) <=? size_after_reset b
    then (Ok tt,
          (e', set_obj (ElementBuffer._buffer e)
                 {| _target := _target b;
                    _handle := handle_after_reset b;
                    _buffer_size := arr_nbytes (converted a);
                    _pending_data := Assigned (Some (converted a, Some o)) |} w))
    else (Raise AssertionError,
          (e', set_obj (ElementBuffer._buffer e) (after_reset b) w)).
Proof.
  intros Hb Hshape a e'.
  pose proof (element_set_data_plain astype e w k shape base n m (Some o)
                Hshape) as H.
  cbv zeta in H. fold a in H. rewrite H.
  rewrite (set_data_with_offset _ _ _ _ _ Hb).
  assert (He : dtype_name (arr_dtype (converted a))
               = if in_DTYPES (scalar_name k) then scalar_name k else "float32").
  { unfold converted. subst a. cbn [arr_dtype dtype_name].
    now destruct (in_DTYPES (scalar_name k)). }
  rewrite He. fold e'.
  now destruct (o + arr_nbytes (converted a) <=? size_after_reset b).
Qed.

Lemma ElementBuffer_set_data_at_offset_witness :
  ElementBuffer.set_data no_records (PyArray six_indices) (Some 0)
    (new_ElementBuffer 0, world_of [index_buffer])
  = (Raise AssertionError,
     ({| ElementBuffer._buffer := 0; ElementBuffer._shape := Some (6, 1);
         ElementBuffer._type := Some "float32" |},
      world_of [index_buffer])).
Proof.
  etrans.
  - apply (ElementBuffer_set_data_at_offset no_records (new_ElementBuffer 0)
             (world_of [index_buffer]) index_buffer uint32 [6] 7 6 1 0 eq_refl
             (or_introl (conj eq_refl eq_refl))).
  - vm_compute. reflexivity.
Defined.

(** X24: the first [_enable] of an ElementBuffer made with data.
    [ElementBuffer(data)] on a plain array of one dimension, or of two
    with one to four columns, makes a new Buffer object and no device
    call; the first [_enable] takes a handle from the driver, binds it to
    GL_ELEMENT_ARRAY_BUFFER, uploads the converted array in full and
    binds again.  Indices of a kind that is no key of DTYPES reach the
    device as float32 numbers. *)
Theorem ElementBuffer_init_then_enable (astype : ndarray -> result ndarray)
    (w : world) (k : scalar) (shape : list Z) (base : nat) (n m : Z) :
  (shape = [n] /\ m = 1) \/ (shape = [n; m] /\ 1 <= m <= 4) ->
  0 <= n ->
  let a := {| arr_dtype := Plain k; arr_shape := shape; arr_base := base |} in
  let h := driver w (gl_log w) in
  exists e w1 w2,
    ElementBuffer.__init__ astype (PyArray a) PyNone w = (Ok e, w1) /\
    ElementBuffer._buffer e = length (heap w) /\
    ElementBuffer._shape e = Some (n, m) /\
    ElementBuffer._type e = Some (dtype_name (arr_dtype (converted a))) /\
    gl_log w1 = gl_log w /\
    ElementBuffer._enable e w1 = (Ok tt, w2) /\
    gl_log w2 = gl_log w ++
                [glGenBuffers 1; glBindBuffer GL_ELEMENT_ARRAY_BUFFER h;
                 glBufferData GL_ELEMENT_ARRAY_BUFFER (arr_nbytes (converted a))
                   (converted a) GL_DYNAMIC_DRAW;
                 glBindBuffer GL_ELEMENT_ARRAY_BUFFER h].
Proof.
  intros Hshape Hn a h.
  pose proof (converted_nbytes k shape base n m Hshape Hn) as Hbytes.
  fold a in Hbytes.
  set (l := length (heap w)).
  set (w0 := with_heap (heap w ++ [new_Buffer GL_ELEMENT_ARRAY_BUFFER]) w).
  assert (H0 : heap w0 !! l = Some (new_Buffer GL_ELEMENT_ARRAY_BUFFER)).
  { simpl. now apply list_lookup_middle. }
  assert (Hinit : ElementBuffer.__init__ astype (PyArray a) PyNone w
                  = (Ok {| ElementBuffer._buffer := l;
                           ElementBuffer._shape := Some (n, m);
                           ElementBuffer._type :=
                             Some (dtype_name (arr_dtype (converted a))) |},
                     set_obj l (after_set_data (new_Buffer GL_ELEMENT_ARRAY_BUFFER)
                                  (converted a)) w0)).
  { unfold ElementBuffer.__init__.
    erewrite mbind_ok by reflexivity. cbv beta iota.
    unfold ElementBuffer.with_self. fold l.
    fold (new_Buffer GL_ELEMENT_ARRAY_BUFFER). fold w0.
    pose proof (element_set_data_plain astype (new_ElementBuffer l) w0 k shape
                  base n m None Hshape) as H.
    cbv zeta in H. fold a in H. unfold new_ElementBuffer in H. rewrite H.
    cbn [ElementBuffer._buffer].
    now rewrite (set_data_no_offset _ _ _ _ H0). }
  assert (Hp : _pending_data (after_set_data (new_Buffer GL_ELEMENT_ARRAY_BUFFER)
                                (converted a))
               = Assigned (Some (converted a, None))).
  { simpl. unfold staged_offset, size_after_reset. simpl.
    now replace (arr_nbytes (converted a) =? -1) with false by lia. }
  eexists _, _, _. split; [exact Hinit |]. do 4 (split; [reflexivity |]).
  unfold ElementBuffer._enable. cbn [ElementBuffer._buffer].
  split; [eapply enable_full; [lk | vm_compute; discriminate | exact Hp] |].
  simpl. unfold deleted_calls, handle_after_reset. simpl.
  now rewrite app_nil_r.
Qed.

Lemma ElementBuffer_init_then_enable_witness :
  exists e w1 w2,
    ElementBuffer.__init__ no_records (PyArray six_indices) PyNone (world_of [])
    = (Ok e, w1) /\
    ElementBuffer._type e = Some "float32" /\
    ElementBuffer._enable e w1 = (Ok tt, w2) /\
    gl_log w2 = [glGenBuffers 1; glBindBuffer GL_ELEMENT_ARRAY_BUFFER 1;
                 glBufferData GL_ELEMENT_ARRAY_BUFFER 24
                   (astype_float32 six_indices) GL_DYNAMIC_DRAW;
                 glBindBuffer GL_ELEMENT_ARRAY_BUFFER 1].
Proof.
  destruct (ElementBuffer_init_then_enable no_records (world_of []) uint32 [6]
              7 6 1 (or_introl (conj eq_refl eq_refl)))
    as (e & w1 & w2 & Hinit & _ & _ & Ht & _ & Hen & Hlog).
  - lia.
  - exists e, w1, w2. split; [exact Hinit |]. split; [exact Ht |].
    split; [exact Hen | exact Hlog].
Defined.

(** X25: what [ElementBuffer.set_data] refuses, it refuses before anything
    is assigned: ValueError for data that is no array, AssertionError for
    an array, plain or of records, that has neither one dimension nor two
    with one to four columns.  The ElementBuffer and every Buffer are as
    they were. *)
Theorem ElementBuffer_set_data_rejects_shapes
    (astype : ndarray -> result ndarray) (e : ElementBuffer.t) (w : world)
    (offset : option Z) :
  (forall data, (forall a, data <> PyArray a) ->
     ElementBuffer.set_data astype data offset (e, w)
     = (Raise ValueError, (e, w))) /\
  (forall a,
     plain_shape_ok (arr_shape a) = false ->
     ElementBuffer.set_data astype (PyArray a) offset (e, w)
     = (Raise AssertionError, (e, w))).
Proof.
  split.
  - intros data H. destruct data; try reflexivity. now destruct (H a).
  - intros a H. unfold ElementBuffer.set_data.
    unfold mbind, M_bind, bind, assert, tuple_item, mret, M_ret, ret, raise.
    unfold arr_ndim.
    destruct (arr_shape a) as [|n [|m [|x rest]]]; simpl in H; try discriminate.
    + reflexivity.
    + change (bool_decide (Z.of_nat (length [n; m]) ∈ [1; 2])) with true.
      change (Z.of_nat (length [n; m]) =? 2) with true. cbn.
      now rewrite H.
    + rewrite bool_decide_eq_false_2; [reflexivity |].
      simpl length. intros Hin.
      apply elem_of_cons in Hin as [Hin | Hin]; [lia |].
      apply elem_of_cons in Hin as [Hin | Hin]; [lia |].
      now apply elem_of_nil in Hin.
Qed.

Lemma ElementBuffer_set_data_rejects_shapes_witness :
  ElementBuffer.set_data no_records
    (PyArray {| arr_dtype := Plain uint16; arr_shape := [2; 3; 4];
                arr_base := 8 |}) None
    (new_ElementBuffer 0, world_of [index_buffer])
  = (Raise AssertionError, (new_ElementBuffer 0, world_of [index_buffer])).
Proof.
  apply (proj2 (ElementBuffer_set_data_rejects_shapes no_records
                  (new_ElementBuffer 0) (world_of [index_buffer]) None)).
  reflexivity.
Defined.

(** ** A Buffer made without data *)

(** C4: evaluation on a Buffer made without data.  In every world,
    [Buffer(GL_ARRAY_BUFFER)] makes the object with handle 0, size -1 and
    no [_pending_data], and the first [_enable] stops at reading
    [_pending_data]: it raises AttributeError and makes no device call.
    On [Buffer(GL_ARRAY_BUFFER, data)], the sibling path, [_enable]
    returns and its last device call is the bind. *)
Theorem C4_enable_without_data_raises (w : world) :
  (exists l w1,
     Buffer.__init__ GL_ARRAY_BUFFER PyNone w = (Ok l, w1) /\
     heap w1 !! l = Some (new_Buffer GL_ARRAY_BUFFER) /\
     gl_log w1 = gl_log w /\
     Buffer._enable l w1 = (Raise AttributeError, w1)) /\
  (exists l w1 w2 calls,
     Buffer.__init__ GL_ARRAY_BUFFER (PyArray three_floats) w = (Ok l, w1) /\
     Buffer._enable l w1 = (Ok tt, w2) /\
     gl_log w2 = gl_log w ++ calls ++
                 [glBindBuffer GL_ARRAY_BUFFER (driver w (gl_log w))]).
Proof.
  set (l := length (heap w)).
  set (w0 := with_heap (heap w ++ [new_Buffer GL_ARRAY_BUFFER]) w).
  assert (H0 : heap w0 !! l = Some (new_Buffer GL_ARRAY_BUFFER)).
  { simpl. now apply list_lookup_middle. }
  split.
  - exists l, w0. split; [reflexivity |]. split; [exact H0 |].
    split; [reflexivity |].
    apply (enable_unset l (new_Buffer GL_ARRAY_BUFFER));
      [exact H0 | simpl; lia | reflexivity].
  - assert (Hinit : Buffer.__init__ GL_ARRAY_BUFFER (PyArray three_floats) w
                    = (Ok l, set_obj l (after_set_data (new_Buffer GL_ARRAY_BUFFER)
                                          three_floats) w0)).
    { unfold Buffer.__init__.
      rewrite bool_decide_eq_true_2 by repeat constructor.
      erewrite mbind_ok by reflexivity. fold l.
      fold (new_Buffer GL_ARRAY_BUFFER). fold w0.
      erewrite mbind_ok by (exact (set_data_no_offset _ _ _ _ H0)).
      reflexivity. }
    eexists l, _, _, [_; _; _]. split; [exact Hinit |].
    split; [eapply enable_full; [lk | vm_compute; discriminate | reflexivity] |].
    simpl. now rewrite app_nil_r.
Qed.

(** ** The buffer argument of VertexBuffer *)


#[local] Opaque Buffer.set_data.


#[local] Transparent Buffer.set_data.





